(** * EMAnnotationSchemas: the schema-to-model compiler of [models.py]

    A shallow embedding of [emannotationschemas/models.py]: the table-dict
    builder ([create_table_dict], [validate_metadata], [add_column]), the
    annotation/segmentation split, the model registry ([ModelStore]) and
    the dataset compiler, followed by the properties of the specification
    that concern them.

    Python dicts are finite maps ([gmap]); exceptions are the [Raise]
    results of an error type; the module-level registry and the classes
    made by [type(...)] live in an explicit [World] that the stateful
    functions thread through.

    [models.py] imports [create_flattened_schema], [get_types],
    [get_schema], the [Contact] schema and [MetaDataTypes] from modules of
    the package that are not part of the sources at hand; they are
    parameters of the functions that use them.

    [Base] and [FlatBase] are SQLAlchemy declarative bases, so that
    [type(name, (Base,), dict)] runs the library's declarative setup on
    the new class. Of that setup the embedding keeps what decides whether
    the call returns: the attribute name it reserves, the Table it defines
    on the base's MetaData, and the primary key the mapper asks for. *)

From Stdlib Require Import Ascii.
From stdpp Require Import gmap strings list fin_maps pretty.

Open Scope string_scope.

(** ** Python values *)

(** The values found in a field's [metadata] bag and in a table's metadata
    dict: [None], booleans and strings. *)
Inductive PyVal :=
  | PNone
  | PBool (b : bool)
  | PStr (s : string).

#[global] Instance PyVal_eq_dec : EqDecision PyVal.
Proof. solve_decision. Defined.

(** Truth value of [if v:]. *)
Definition truthy (v : PyVal) : bool :=
  match v with
  | PNone => false
  | PBool b => b
  | PStr s => negb (String.eqb s "")
  end.

(** [str(v)], as an f-string inserts it. *)
Definition py_str (v : PyVal) : string :=
  match v with
  | PNone => "None"
  | PBool true => "True"
  | PBool false => "False"
  | PStr s => s
  end.

(** [d.get(k, dflt)]. *)
Definition dict_get {A} (d : gmap string A) (k : string) (dflt : A) : A :=
  default dflt (d !! k).

(** [m.update(d)]: the entries of [d] win. *)
Definition dict_update {A} (m d : gmap string A) : gmap string A := d ∪ m.

(** ** Marshmallow fields and schemas *)

(** [type(field)]. [mm.fields.Int], [Str] and [Bool] are the classes
    [Integer], [String] and [Boolean] under another name. *)
Inductive FieldType :=
  | ReferenceTableField
  | NumericField
  | PostGISField
  | mm_Integer
  | mm_Float
  | mm_String
  | mm_Boolean
  | mm_Nested
  | mm_Other (cls : string).

#[global] Instance FieldType_eq_dec : EqDecision FieldType.
Proof. solve_decision. Defined.

Record Field := mkField {
  field_type : FieldType;
  metadata : gmap string PyVal
}.

(** A schema class: its [__name__] and its [_declared_fields], an ordered
    dict, kept as the list of its items. *)
Record Schema := mkSchema {
  schema_name : string;
  declared_fields : list (string * Field)
}.

(** ** SQLAlchemy columns *)

Inductive SqlType :=
  | BigInteger
  | Integer
  | Float
  | SqlString
  | Boolean
  | DateTime
  | GeometryCls
  | Geometry (geometry_type : PyVal) (dimension : Z) (use_N_D_index : PyVal).

(** [Column(type, ForeignKey(target)?, primary_key=, index=, nullable=)]:
    the arguments as the call gives them; [index] is [None] and
    [nullable] is absent when the call leaves them out. *)
Record Column := mkColumn {
  col_type : SqlType;
  col_foreign_key : option string;
  col_primary_key : bool;
  col_index : PyVal;
  col_nullable_arg : option bool
}.

(** SQLAlchemy's default: a column is nullable unless it is a primary key. *)
Definition col_nullable (c : Column) : bool :=
  default (negb (col_primary_key c)) (col_nullable_arg c).

Record MapperArgs := mkMapperArgs {
  polymorphic_identity : string;
  concrete : bool
}.

(** What a table dict holds under a key. *)
Inductive Entry :=
  | ERaw (v : PyVal)
  | EColumn (c : Column)
  | EMapperArgs (a : MapperArgs).

Abbreviation TableDict := (gmap string Entry).

(** The [table_metadata] argument: a dict, or something that is not one
    ([None] by default). *)
Inductive TableMetadata :=
  | MetaDict (d : gmap string PyVal)
  | MetaValue (v : PyVal).

(** ** Exceptions *)

(** The parts of an f-string message; the objects it formats are kept as
    they are. *)
Inductive MsgPart :=
  | Lit (s : string)
  | FmtNames (l : list string)
  | FmtFieldType (t : FieldType)
  | FmtMetadata (d : gmap string PyVal)
  | FmtSchema (name : string).

(** What SQLAlchemy's declarative setup refuses. Its exceptions
    ([sqlalchemy.exc.InvalidRequestError], [sqlalchemy.exc.ArgumentError])
    are kept by class and by what they are about; the wording of their
    messages is the library's. *)
Inductive Refusal :=
  | ReservedAttribute (name : string)
  | TableAlreadyDefined (table : string)
  | NoPrimaryKey (class_name : string).

Inductive exn :=
  | UnknownAnnotationTypeException (msg : list MsgPart)
  | InvalidSchemaField (msg : list MsgPart)
  | InvalidTableMetaDataException (msg : list MsgPart)
  | PyException (msg : list MsgPart)
  | KeyError (key : string)
  | AttributeError (msg : list MsgPart)
  | TypeError (msg : list MsgPart)
  | InvalidRequestError (why : Refusal)
  | ArgumentError (why : Refusal).

Inductive Result (A : Type) :=
  | Ok (a : A)
  | Raise (e : exn).
Arguments Ok {A} a.
Arguments Raise {A} e.

Definition is_Ok {A} (r : Result A) : bool :=
  match r with
  | Ok _ => true
  | Raise _ => false
  end.

Definition rbind {A B} (r : Result A) (k : A → Result B) : Result B :=
  match r with
  | Ok a => k a
  | Raise e => Raise e
  end.

Notation "'let?' x := r 'in' k" := (rbind r (λ x, k))
  (at level 10, x pattern, r at level 100, k at level 200).

(** ** The table-dict builder *)

(** [field_column_map]. *)
Definition field_column_map (t : FieldType) : option SqlType :=
  match t with
  | ReferenceTableField => Some BigInteger
  | NumericField => Some BigInteger
  | PostGISField => Some GeometryCls
  | mm_Integer => Some Integer
  | mm_Float => Some Float
  | mm_String => Some SqlString
  | mm_Boolean => Some Boolean
  | mm_Nested | mm_Other _ => None
  end.

Definition tablename_key : string := "__tablename__".
Definition id_key : string := "id".
Definition mapper_args_key : string := "__mapper_args__".
Definition reference_table_name : string := "reference_table_name".

Section Builder.

(** [MetaDataTypes.REFERENCE.value], from [schemas/base.py]. *)
Variable REFERENCE_value : PyVal.

(** [str(o)] for an entry that is not a plain value (a [Column], the
    mapper-args dict), as SQLAlchemy and the interpreter print it. *)
Variable object_str : Entry → string.

Definition entry_str (e : Entry) : string :=
  match e with
  | ERaw v => py_str v
  | _ => object_str e
  end.

Definition validate_metadata (model : TableDict) (field : Field)
    (table_metadata : TableMetadata) : Result TableDict :=
  let field_metadata := dict_get (metadata field) "metadata" PNone in
  if decide (field_metadata = REFERENCE_value) then
    match table_metadata with
    | MetaValue _ =>
        Raise (InvalidTableMetaDataException
                 [Lit "no metadata provided for reference annotation"])
    | MetaDict d =>
        match d !! "reference_table" with
        | Some v => Ok (<[reference_table_name := ERaw v]> model)
        | None =>
            Raise (InvalidTableMetaDataException
                     [Lit "reference table not specified in metadata ";
                      FmtMetadata d])
        end
    end
  else Ok model.

Definition add_column (model : TableDict) (key : string) (field : Field)
    : Result TableDict :=
  let field_type := field_type field in
  let has_index := dict_get (metadata field) "index" (PBool false) in
  match field_column_map field_type with
  | Some sql_type =>
      if decide (field_type = PostGISField) then
        let postgis_geom :=
          dict_get (metadata field) "postgis_geometry" (PStr "POINTZ") in
        Ok (<[key := EColumn (mkColumn (Geometry postgis_geom 3 has_index)
                                 None false PNone None)]> model)
      else if decide (field_type = ReferenceTableField) then
        match model !! reference_table_name with
        | Some popped =>
            Ok (<[key := EColumn (mkColumn BigInteger
                                    (Some (entry_str popped +:+ ".id"))
                                    false has_index None)]>
                  (delete reference_table_name model))
        | None => Raise (KeyError reference_table_name)
        end
      else
        Ok (<[key := EColumn (mkColumn sql_type None false has_index None)]>
              model)
  | None =>
      Raise (InvalidSchemaField
               [Lit "field type "; FmtFieldType field_type;
                Lit " not supported"])
  end.

Definition drop_column (field : Field) : bool :=
  truthy (dict_get (metadata field) "drop_column" (PBool false)).

(** One turn of the loop over [Schema._declared_fields.items()]. *)
Definition add_field (table_metadata : TableMetadata) (model : TableDict)
    (item : string * Field) : Result TableDict :=
  let '(key, field) := item in
  if negb (drop_column field) then
    let? model := validate_metadata model field table_metadata in
    add_column model key field
  else Ok model.

Fixpoint add_fields (table_metadata : TableMetadata) (model : TableDict)
    (items : list (string * Field)) : Result TableDict :=
  match items with
  | [] => Ok model
  | item :: rest =>
      let? model := add_field table_metadata model item in
      add_fields table_metadata model rest
  end.

(** [if segmentation_source:] on an optional string. *)
Definition source_given (segmentation_source : option string) : option string :=
  match segmentation_source with
  | Some s => if truthy (PStr s) then Some s else None
  | None => None
  end.

Definition header (table_name : string) (segmentation_source : option string)
    : TableDict :=
  match source_given segmentation_source with
  | Some source =>
      dict_update ∅
        (<[tablename_key := ERaw (PStr (table_name +:+ "__" +:+ source))]>
         (<[id_key := EColumn (mkColumn BigInteger
                                 (Some (table_name +:+ ".id")) true PNone None)]>
          (<[mapper_args_key :=
               EMapperArgs (mkMapperArgs (table_name +:+ "__" +:+ source) true)]>
           ∅)))
  | None =>
      dict_update ∅
        (<[tablename_key := ERaw (PStr table_name)]>
         (<[id_key := EColumn (mkColumn BigInteger None true PNone None)]>
          (<[mapper_args_key := EMapperArgs (mkMapperArgs table_name true)]>
           ∅)))
  end.

Definition crud_columns : TableDict :=
  <["created" := EColumn (mkColumn DateTime None false (PBool true) (Some false))]>
  (<["deleted" := EColumn (mkColumn DateTime None false (PBool true) None)]>
   (<["superceded_id" := EColumn (mkColumn BigInteger None false PNone None)]>
    ∅)).

Definition create_table_dict (table_name : string) (schema : Schema)
    (segmentation_source : option string) (table_metadata : TableMetadata)
    (with_crud_columns : bool) : Result TableDict :=
  let model := header table_name segmentation_source in
  let model :=
    if with_crud_columns then dict_update model crud_columns else model in
  add_fields table_metadata model (declared_fields schema).

End Builder.

(** ** Database names *)

(** [str(version)] for an [int] or [None]. *)
Definition version_str (version : option Z) : string :=
  match version with
  | Some z => pretty z
  | None => "None"
  end.

(** [version] is [0] unless the caller gives one. *)
Definition format_database_name (aligned_volume : string) (version : option Z)
    : string :=
  aligned_volume +:+ "_v" +:+ version_str version.

(** [s.split(sep)] for a separator of one character. *)
Fixpoint str_split (sep : Ascii.ascii) (s : string) : list string :=
  match s with
  | EmptyString => [EmptyString]
  | String a rest =>
      if Ascii.eqb a sep then EmptyString :: str_split sep rest
      else match str_split sep rest with
           | head :: tail => String a head :: tail
           | [] => [String a EmptyString]
           end
  end.

(** [sep.join(l)]. *)
Definition str_join (sep : string) (l : list string) : string :=
  String.concat sep l.

(** [version] is [None] unless the caller gives one. *)
Definition format_version_db_uri (sql_uri aligned_volume : string)
    (version : option Z) : string :=
  let sql_uri_base := str_join "/" (removelast (str_split "/"%char sql_uri)) in
  let new_db_name := format_database_name aligned_volume version in
  sql_uri_base +:+ "/" +:+ new_db_name.

(** ** The registry and the classes it holds *)

Inductive BaseClass := Base | FlatBase.

#[global] Instance BaseClass_eq_dec : EqDecision BaseClass.
Proof. solve_decision. Defined.

(** A class made by [type(name, (base,), dict)]. *)
Record ModelClass := mkModelClass {
  cls_name : string;
  cls_base : BaseClass;
  cls_dict : gmap string Entry
}.

(** A model is a reference to the class object: its position among the
    classes made so far. Two models are the same object exactly when the
    references are equal. *)
Abbreviation ref := nat.

Record ModelStore := mkModelStore {
  container : gmap string ref;
  flat_container : gmap string ref
}.

Definition ModelStore_init : ModelStore := mkModelStore ∅ ∅.

Definition contains_model (self : ModelStore) (table_name : string) (flat : bool)
    : bool :=
  if flat then bool_decide (table_name ∈ dom (flat_container self))
  else bool_decide (table_name ∈ dom (container self)).

Definition get_model (self : ModelStore) (table_name : string) (flat : bool)
    : Result ref :=
  match (if flat then flat_container self else container self) !! table_name with
  | Some model => Ok model
  | None => Raise (KeyError table_name)
  end.

Definition set_model (self : ModelStore) (table_name : string) (model : ref)
    (flat : bool) : ModelStore :=
  if flat then
    mkModelStore (container self) (<[table_name := model]> (flat_container self))
  else
    mkModelStore (<[table_name := model]> (container self)) (flat_container self).

(** The interpreter state the compiler works on: the classes made by
    [type] for [Base] and [FlatBase], in order of creation, the
    module-level [sqlalchemy_models], and the names of the Tables defined
    on [Base.metadata] and on [FlatBase.metadata] (each declarative base
    has a MetaData of its own). *)
Record World := mkWorld {
  classes : list ModelClass;
  sqlalchemy_models : ModelStore;
  tables : list (BaseClass * string)
}.

Definition World_init : World := mkWorld [] ModelStore_init [].

(** Stateful, fallible code: an exception leaves the state as it was when
    it was raised. *)
Definition M (A : Type) : Type := World → Result A * World.

Definition ret {A} (a : A) : M A := λ w, (Ok a, w).
Definition raise {A} (e : exn) : M A := λ w, (Raise e, w).
Definition lift {A} (r : Result A) : M A := λ w, (r, w).
Definition bind {A B} (m : M A) (k : A → M B) : M B :=
  λ w, match m w with
       | (Ok a, w') => k a w'
       | (Raise e, w') => (Raise e, w')
       end.

Notation "'do' x <- m ; k" := (bind m (λ x, k))
  (at level 10, x pattern, m at level 100, k at level 200).

(** Python's [type(x).__name__] for what [dict.get] finds under a key. *)
Definition type_name (found : option Entry) : string :=
  match found with
  | None | Some (ERaw PNone) => "NoneType"
  | Some (ERaw (PBool _)) => "bool"
  | Some (ERaw (PStr _)) => "str"
  | Some (EColumn _) => "Column"
  | Some (EMapperArgs _) => "dict"
  end.

(** The name of the Table a class dict declares. A dict of
    [create_table_dict] holds under [__tablename__] the [str] of the
    header, or the Column of a field of that name; the Table made from a
    Column is keyed in the MetaData by the Column object, which is no
    table name. *)
Definition declared_table (dict : TableDict) : option string :=
  match dict !! tablename_key with
  | Some (ERaw (PStr name)) => Some name
  | _ => None
  end.

Definition is_column (found : option Entry) : bool :=
  match found with
  | Some (EColumn _) => true
  | _ => false
  end.

Definition is_primary_key (e : Entry) : bool :=
  match e with
  | EColumn c => col_primary_key c
  | _ => false
  end.

(** Some column of the dict has [primary_key=True]. *)
Definition has_primary_key (dict : TableDict) : bool :=
  existsb (λ item, is_primary_key item.2) (map_to_list dict).

(** The name the dict declares, when the MetaData of the base has a
    Table of that name already. *)
Definition table_clash (base : BaseClass) (dict : TableDict)
    (defined : list (BaseClass * string)) : option string :=
  match declared_table dict with
  | Some table =>
      if bool_decide ((base, table) ∈ defined) then Some table else None
  | None => None
  end.

Definition define_table (base : BaseClass) (dict : TableDict)
    (defined : list (BaseClass * string)) : list (BaseClass * string) :=
  match declared_table dict with
  | Some table => defined ++ [(base, table)]
  | None => defined
  end.

(** [type(name, (base,), dict)] for a declarative base: the class is made
    and SQLAlchemy sets up its mapping, in this order. A Column under the
    attribute name [metadata] is refused ([InvalidRequestError]). The
    Table of the class is defined on the MetaData of the base, which
    refuses a name it already has ([InvalidRequestError]). The mapper
    then needs a primary key among the columns ([ArgumentError]); when it
    finds none the call raises, and the Table stays defined. Otherwise
    the call returns the new class. *)
Definition type_ (name : string) (base : BaseClass) (dict : TableDict)
    : M ref :=
  λ w,
    if is_column (dict !! "metadata") then
      (Raise (InvalidRequestError (ReservedAttribute "metadata")), w)
    else
      match table_clash base dict (tables w) with
      | Some table =>
          (Raise (InvalidRequestError (TableAlreadyDefined table)), w)
      | None =>
          let defined := define_table base dict (tables w) in
          if has_primary_key dict then
            (Ok (length (classes w)),
             mkWorld (classes w ++ [mkModelClass name base dict])
                     (sqlalchemy_models w) defined)
          else
            (Raise (ArgumentError (NoPrimaryKey name)),
             mkWorld (classes w) (sqlalchemy_models w) defined)
      end.

Definition registry_contains (table_name : string) (flat : bool) : M bool :=
  λ w, (Ok (contains_model (sqlalchemy_models w) table_name flat), w).

Definition registry_get (table_name : string) (flat : bool) : M ref :=
  λ w, (get_model (sqlalchemy_models w) table_name flat, w).

Definition registry_set (table_name : string) (model : ref) (flat : bool)
    : M unit :=
  λ w, (Ok tt,
        mkWorld (classes w)
                (set_model (sqlalchemy_models w) table_name model flat)
                (tables w)).

(** ** Splitting and compiling *)

Definition convert_dict_to_schema (schema_name : string)
    (schema_dict : list (string * Field)) : Schema :=
  mkSchema ("Flat" +:+ schema_name) schema_dict.

Section Compiler.

Variable REFERENCE_value : PyVal.
Variable object_str : Entry → string.

(** [create_flattened_schema], from [emannotationschemas/flatten.py]. *)
Variable create_flattened_schema : Schema → Schema.

(** [get_types()] and [get_schema(name)], from the package's
    [__init__.py]. *)
Variable get_types : list string.
Variable get_schema : string → Result Schema.

(** The [Contact] schema, from [schemas/contact.py]. *)
Variable Contact : Schema.

Definition validate_types (schemas_and_tables : list (string * string))
    : Result unit :=
  let all_types := get_types in
  if negb (forallb (λ p, bool_decide (p.1 ∈ all_types)) schemas_and_tables) then
    let bad_types := (filter (λ p, p.1 ∉ all_types) schemas_and_tables).*1 in
    Raise (UnknownAnnotationTypeException
             [FmtNames bad_types; Lit " are invalid types"])
  else Ok tt.

(** The loop of [split_annotation_schema]: the two column dicts, in
    insertion order. *)
Fixpoint split_fields (flat_name : string) (items : list (string * Field))
    (annotation_columns segmentation_columns : list (string * Field))
    : Result (list (string * Field) * list (string * Field)) :=
  match items with
  | [] => Ok (annotation_columns, segmentation_columns)
  | (key, field) :: rest =>
      if decide (field_type field = mm_Nested) then
        Raise (PyException [Lit "Schema "; FmtSchema flat_name;
                            Lit " must be flattened before splitting"])
      else if truthy (dict_get (metadata field) "segmentation_field" PNone) then
        split_fields flat_name rest annotation_columns
                     (segmentation_columns ++ [(key, field)])
      else
        split_fields flat_name rest (annotation_columns ++ [(key, field)])
                     segmentation_columns
  end.

Definition split_annotation_schema (schema : Schema) : Result (Schema * Schema) :=
  let flat_schema := create_flattened_schema schema in
  let? columns :=
    split_fields (schema_name flat_schema) (declared_fields flat_schema) [] [] in
  let annotation_columns := columns.1 in
  let segmentation_columns := columns.2 in
  let schema_name := schema_name schema in
  let flat_annotation_schema :=
    convert_dict_to_schema (schema_name +:+ "_annotation") annotation_columns in
  let flat_segmentation_schema :=
    convert_dict_to_schema (schema_name +:+ "_segmentation") segmentation_columns in
  Ok (flat_annotation_schema, flat_segmentation_schema).

Definition create_sqlalchemy_model (table_name : string) (schema : Schema)
    (segmentation_source : option string) (table_metadata : TableMetadata)
    (with_crud_columns : bool) : M ref :=
  do table_dict <- lift (create_table_dict REFERENCE_value object_str
                           table_name schema segmentation_source
                           table_metadata with_crud_columns);
  match table_dict !! tablename_key with
  | Some (ERaw (PStr table_name)) => type_ table_name Base table_dict
  | found =>
      raise (TypeError [Lit "type.__new__() argument 1 must be str, not ";
                        Lit (type_name found)])
  end.

Definition make_model_from_schema (table_name : string) (schema : Schema)
    (segmentation_source : option string) (table_metadata : TableMetadata)
    (with_crud_columns : bool) : M ref :=
  do cached <- registry_contains table_name false;
  do _ <- (if negb cached then
             do schemas <- lift (split_annotation_schema schema);
             let annotation_columns := schemas.1 in
             let segmentation_columns := schemas.2 in
             do model <-
               match source_given segmentation_source with
               | Some _ =>
                   create_sqlalchemy_model table_name segmentation_columns
                     segmentation_source table_metadata with_crud_columns
               | None =>
                   create_sqlalchemy_model table_name annotation_columns
                     None table_metadata with_crud_columns
               end;
             registry_set table_name model false
           else ret tt);
  registry_get table_name false.

Definition make_sqlalchemy_model (table_name schema_type : string)
    (segmentation_source : option string) (table_metadata : TableMetadata)
    (with_crud_columns : bool) : M ref :=
  do schema <- lift (get_schema schema_type);
  make_model_from_schema table_name schema segmentation_source
    table_metadata with_crud_columns.

Definition make_flat_model_from_schema (table_name : string) (schema : Schema)
    (segmentation_source : option string) (table_metadata : TableMetadata)
    : M ref :=
  do cached <- registry_contains table_name true;
  do _ <- (if negb cached then
             let flat_schema := create_flattened_schema schema in
             do annotation_dict <-
               lift (create_table_dict REFERENCE_value object_str
                       table_name flat_schema segmentation_source
                       table_metadata false);
             do FlatAnnotationModel <- type_ table_name FlatBase annotation_dict;
             registry_set table_name FlatAnnotationModel true
           else ret tt);
  registry_get table_name true.

Definition make_flat_model (table_name schema_type : string)
    (segmentation_source : option string) (table_metadata : TableMetadata)
    : M ref :=
  do schema <- lift (get_schema schema_type);
  make_flat_model_from_schema table_name schema segmentation_source
    table_metadata.

(** [metadata_dict.get(model_key)]; [metadata_dict] is [None] unless the
    caller gives one. *)
Definition metadata_dict_get (metadata_dict : option (gmap string TableMetadata))
    (model_key : string) : Result TableMetadata :=
  match metadata_dict with
  | Some d => Ok (dict_get d model_key (MetaValue PNone))
  | None =>
      Raise (AttributeError [Lit "'NoneType' object has no attribute 'get'"])
  end.

(** The loop of [make_dataset_models] over the pairs. *)
Fixpoint dataset_loop (schemas_and_tables : list (string * string))
    (segmentation_source : option string)
    (metadata_dict : option (gmap string TableMetadata))
    (with_crud_columns : bool) (dataset_dict : gmap string ref)
    : M (gmap string ref) :=
  match schemas_and_tables with
  | [] => ret dataset_dict
  | (schema_name, table_name) :: rest =>
      let model_key := table_name in
      do table_metadata <- lift (metadata_dict_get metadata_dict model_key);
      do model <- make_sqlalchemy_model table_name schema_name
                    segmentation_source table_metadata with_crud_columns;
      dataset_loop rest segmentation_source metadata_dict with_crud_columns
        (<[model_key := model]> dataset_dict)
  end.

Definition make_dataset_models (aligned_volume : string)
    (schemas_and_tables : list (string * string))
    (segmentation_source : option string) (include_contacts : bool)
    (metadata_dict : option (gmap string TableMetadata))
    (with_crud_columns : bool) : M (gmap string ref) :=
  do _ <- lift (validate_types schemas_and_tables);
  do dataset_dict <- dataset_loop schemas_and_tables segmentation_source
                       metadata_dict with_crud_columns ∅;
  if include_contacts then
    let table_name := aligned_volume +:+ "__contact" in
    do contact_model <- make_model_from_schema table_name Contact None
                          (MetaValue PNone) true;
    ret (<["contact" := contact_model]> dataset_dict)
  else ret dataset_dict.

End Compiler.

(** * The vocabulary of the properties *)

(** The keys of the header that [create_table_dict] writes first. *)
Definition header_keys : list string :=
  [tablename_key; id_key; mapper_args_key].

(** The names of the audit columns. *)
Definition crud_names : list string := ["created"; "deleted"; "superceded_id"].

(** The columns the builder itself declares. *)
Definition builder_columns (with_crud_columns : bool) : list string :=
  id_key :: (if with_crud_columns then crud_names else []).


(** The dict before the loop over the fields. *)
Definition initial_model (table_name : string)
    (segmentation_source : option string) (with_crud_columns : bool)
    : TableDict :=
  if with_crud_columns
  then dict_update (header table_name segmentation_source) crud_columns
  else header table_name segmentation_source.

(** The table metadata is not a dict, or has no [reference_table]. *)
Definition lacks_reference_table (meta : TableMetadata) : Prop :=
  match meta with
  | MetaDict d => d !! "reference_table" = None
  | MetaValue _ => True
  end.

(** The test [split_annotation_schema] makes on a field. *)
Definition is_segmentation_field (f : Field) : bool :=
  truthy (dict_get (metadata f) "segmentation_field" PNone).

(** The two halves of a flattened schema, in the order of its fields. *)
Definition annotation_fields (flat_schema : Schema) : list (string * Field) :=
  filter (λ item, is_segmentation_field item.2 = false)
         (declared_fields flat_schema).

Definition segmentation_fields (flat_schema : Schema) : list (string * Field) :=
  filter (λ item, is_segmentation_field item.2 = true)
         (declared_fields flat_schema).

(** The fields a full compile hands to the builder: the segmentation
    fields when a segmentation source is given, the others otherwise. *)
Definition compiled_fields (seg : option string) (flat_schema : Schema)
    : list (string * Field) :=
  match source_given seg with
  | Some _ => segmentation_fields flat_schema
  | None => annotation_fields flat_schema
  end.

(** No nested field is left. *)
Definition flattened (flat_schema : Schema) : Prop :=
  ∀ k f, (k, f) ∈ declared_fields flat_schema → field_type f ≠ mm_Nested.

(** The schema and source a full compile hands to the builder. *)
Definition compiled_half (seg : option string) (schemas : Schema * Schema)
    : Schema * option string :=
  match source_given seg with
  | Some _ => (schemas.2, seg)
  | None => (schemas.1, None)
  end.

(** The [__tablename__] and the [id] column of the header. *)
Definition compiled_table_name (T : string) (seg : option string) : string :=
  match source_given seg with
  | Some source => T +:+ "__" +:+ source
  | None => T
  end.


(** What [type] raises when the name it is given is a Column, not a
    [str]. *)
Definition type_error : exn :=
  TypeError [Lit "type.__new__() argument 1 must be str, not "; Lit "Column"].

(** The state after class [c] has been made, its Table defined, and the
    class stored under [T]. *)
Definition store_class (T : string) (flat : bool) (c : ModelClass) (w : World)
    : World :=
  mkWorld (classes w ++ [c])
          (set_model (sqlalchemy_models w) T (length (classes w)) flat)
          (define_table (cls_base c) (cls_dict c) (tables w)).

(** What the entry points do with what the builder gave: a model is
    stored under [T], an exception goes on to the caller. *)
Definition store_result (T : string) (flat : bool) (r : Result ref * World)
    : Result ref * World :=
  match r with
  | (Ok model, w) =>
      (Ok model,
       mkWorld (classes w) (set_model (sqlalchemy_models w) T model flat)
               (tables w))
  | (Raise e, w) => (Raise e, w)
  end.



(** The message of [validate_types]. *)
Definition invalid_types_msg (bad_types : list string) : list MsgPart :=
  [FmtNames bad_types; Lit " are invalid types"].

(** A call of one of the two compile entry points that consult the
    registry. *)
Inductive Request :=
  | FullRequest (table_name : string) (schema : Schema)
      (segmentation_source : option string) (table_metadata : TableMetadata)
      (with_crud_columns : bool)
  | FlatRequest (table_name : string) (schema : Schema)
      (segmentation_source : option string) (table_metadata : TableMetadata).

(** The (table name, kind) a request is about; the kind is [flat]. *)
Definition request_key (r : Request) : string * bool :=
  match r with
  | FullRequest T _ _ _ _ => (T, false)
  | FlatRequest T _ _ _ => (T, true)
  end.

(** The registry entry of a (table name, kind). *)
Definition cached (key : string * bool) (w : World) : option ref :=
  (if key.2 then flat_container (sqlalchemy_models w)
   else container (sqlalchemy_models w)) !! key.1.

(** Whether going from [w] to [w'] made a class. *)
Definition built (w w' : World) : bool :=
  bool_decide (length (classes w) < length (classes w')).

(** [c in s] for a character. *)
Fixpoint contains_char (c : Ascii.ascii) (s : string) : bool :=
  match s with
  | EmptyString => false
  | String a rest => Ascii.eqb a c || contains_char c rest
  end.

(** Every reference in the registry is that of a class that exists. *)
Definition registry_wf (w : World) : Prop :=
  ∀ key x, cached key w = Some x → x < length (classes w).

(** [w'] has the registry entries of [w], unchanged, and the classes of
    [w] as its first ones. *)
Definition extends (w w' : World) : Prop :=
  (∀ key x, cached key w = Some x → cached key w' = Some x)
  ∧ classes w `prefix_of` classes w'.

(** What [split_annotation_schema] raises on a nested field. *)
Definition not_flattened_error (flat_name : string) : exn :=
  PyException [Lit "Schema "; FmtSchema flat_name;
               Lit " must be flattened before splitting"].

(** The fields that pass the [drop_column] test, and the schema cut down
    to them. *)
Definition retained_fields (schema : Schema) : list (string * Field) :=
  filter (λ item, drop_column item.2 = false) (declared_fields schema).

Definition without_dropped (schema : Schema) : Schema :=
  mkSchema (schema_name schema) (retained_fields schema).

Section Vocabulary.

Variable REFERENCE_value : PyVal.
Variable object_str : Entry → string.
Variable create_flattened_schema : Schema → Schema.

(** A field whose metadata marks it as a Reference. *)
Definition is_reference (f : Field) : Prop :=
  dict_get (metadata f) "metadata" PNone = REFERENCE_value.

#[global] Instance is_reference_dec f : Decision (is_reference f).
Proof. unfold is_reference. apply _. Defined.

(** The column [add_column] makes for a field, given what it pops for a
    [ReferenceTableField]. *)
Definition column_of (f : Field) (popped : Entry) : Column :=
  let has_index := dict_get (metadata f) "index" (PBool false) in
  match field_type f with
  | PostGISField =>
      mkColumn (Geometry (dict_get (metadata f) "postgis_geometry" (PStr "POINTZ"))
                         3 has_index) None false PNone None
  | ReferenceTableField =>
      mkColumn BigInteger (Some (entry_str object_str popped +:+ ".id"))
               false has_index None
  | t => mkColumn (default BigInteger (field_column_map t)) None false has_index None
  end.

(** A field the builder can turn into a column: its type is in
    [field_column_map], and a [ReferenceTableField] is marked Reference. *)
Definition compilable (f : Field) : Prop :=
  is_Some (field_column_map (field_type f))
  ∧ (field_type f = ReferenceTableField → is_reference f).

(** The table metadata has what the field asks of it: a field marked
    Reference finds a dict with a [reference_table]. *)
Definition reference_resolves (meta : TableMetadata) (f : Field) : Prop :=
  is_reference f → ¬ lacks_reference_table meta.

(** The builder of a request: what its entry point runs when the key has
    no entry in the registry. *)
Definition builder (r : Request) : M ref :=
  match r with
  | FullRequest T schema seg meta crud =>
      do schemas <- lift (split_annotation_schema create_flattened_schema schema);
      match source_given seg with
      | Some _ =>
          create_sqlalchemy_model REFERENCE_value object_str T schemas.2 seg
            meta crud
      | None =>
          create_sqlalchemy_model REFERENCE_value object_str T schemas.1 None
            meta crud
      end
  | FlatRequest T schema seg meta =>
      do annotation_dict <-
        lift (create_table_dict REFERENCE_value object_str T
                (create_flattened_schema schema) seg meta false);
      type_ T FlatBase annotation_dict
  end.

(** Serving a request. *)
Definition compile (r : Request) : M ref :=
  match r with
  | FullRequest T schema seg meta crud =>
      make_model_from_schema REFERENCE_value object_str create_flattened_schema
        T schema seg meta crud
  | FlatRequest T schema seg meta =>
      make_flat_model_from_schema REFERENCE_value object_str
        create_flattened_schema T schema seg meta
  end.

(** The requests served one after the other, a failed one leaving its
    caller to go on. *)
Fixpoint run_requests (rs : list Request) (w : World) : World :=
  match rs with
  | [] => w
  | r :: rs => run_requests rs (compile r w).2
  end.

(** The keys of the requests that made a class, in order. *)
Fixpoint build_log (rs : list Request) (w : World) : list (string * bool) :=
  match rs with
  | [] => []
  | r :: rs =>
      let w' := (compile r w).2 in
      (if built w w' then [request_key r] else []) ++ build_log rs w'
  end.

(** The keys of the requests that went into the builder: those served
    while their key had no entry. *)
Fixpoint builder_runs (rs : list Request) (w : World) : list (string * bool) :=
  match rs with
  | [] => []
  | r :: rs =>
      (match cached (request_key r) w with
       | Some _ => []
       | None => [request_key r]
       end) ++ builder_runs rs (compile r w).2
  end.

End Vocabulary.

(** * Concrete schemas *)

(** Modelled from the spec: [MetaDataTypes.REFERENCE.value] of
    [schemas/base.py], the [metadata] value of a field of kind Reference. *)
Definition REFERENCE_sample : PyVal := PStr "reference".

(** Python's [str] of a [Column] or of the mapper-args dict. It is reached
    only when such an object is popped from [reference_table_name], which
    happens in none of the schemas below. *)
Definition object_str_sample (e : Entry) : string := "<object>".

(** Modelled from the spec: [create_flattened_schema] of [flatten.py] on a
    schema that has no nested field, where nothing is unnested or
    prefixed and the fields come back as declared. On [nested_schema] it
    stands for a flattener that leaves a nested field behind, the case
    that [split_annotation_schema] checks for. *)
Definition flatten_sample (schema : Schema) : Schema := schema.

(** Modelled from the spec: [get_types()] of the package's [__init__.py],
    for a registry that knows two schema names. *)
Definition types_sample : list string := ["bound_tag"; "cell_type"].

(** A field of type [t] declared with the metadata [md]. *)
Definition field (t : FieldType) (md : list (string * PyVal)) : Field :=
  mkField t (list_to_map md).

(** The scenario of the specification: a point, two strings, and a
    segmentation field that refers to another table. *)
Definition scenario : Schema :=
  mkSchema "BoundTag"
    [("pt", field PostGISField [("index", PBool true)]);
     ("category", field mm_String []);
     ("classification_system", field mm_String []);
     ("supervoxel_id",
      field ReferenceTableField
        [("segmentation_field", PBool true); ("metadata", PStr "reference")])].

(** Modelled from the spec: [get_schema(name)] of the package's
    [__init__.py], every known name resolving to the scenario. *)
Definition get_schema_sample (schema_type : string) : Result Schema :=
  if decide (schema_type ∈ types_sample) then Ok scenario
  else Raise (UnknownAnnotationTypeException [Lit schema_type]).

(** Modelled from the spec: the [Contact] schema of [schemas/contact.py],
    cut down to one numeric field. *)
Definition Contact_sample : Schema :=
  mkSchema "Contact" [("size", field NumericField [])].

(** The table metadata [{"reference_table": "base"}]. *)
Definition base_metadata : gmap string PyVal :=
  {["reference_table" := PStr "base"]}.

(** [make_model_from_schema] and [create_table_dict] with these values. *)
Definition compile_sample :=
  make_model_from_schema REFERENCE_sample object_str_sample flatten_sample.

Definition table_dict_sample :=
  create_table_dict REFERENCE_sample object_str_sample.

(** The scenario without its segmentation field. *)
Definition annotation_only : Schema :=
  mkSchema "BoundTag"
    [("pt", field PostGISField [("index", PBool true)]);
     ("category", field mm_String []);
     ("classification_system", field mm_String [])].

(** A segmentation schema with a field named [id]. *)
Definition schema_with_id : Schema :=
  mkSchema "WithId" [("id", field mm_Integer [])].


(** A schema with a field named [created]. *)
Definition schema_with_created : Schema :=
  mkSchema "WithCreated" [("created", field mm_String [])].

(** A reference annotation, and the same with its field dropped. *)
Definition reference_schema : Schema :=
  mkSchema "Reference"
    [("target_id", field ReferenceTableField [("metadata", PStr "reference")])].

Definition dropped_reference : Schema :=
  mkSchema "Reference"
    [("target_id",
      field ReferenceTableField
        [("metadata", PStr "reference"); ("drop_column", PBool true)])].

(** A dropped field named [id], a retained one named
    [reference_table_name], and a reference after them. *)
Definition schema_with_builder_names : Schema :=
  mkSchema "BuilderNames"
    [("id", field mm_Integer [("drop_column", PBool true)]);
     ("reference_table_name", field mm_String []);
     ("target_id", field ReferenceTableField [("metadata", PStr "reference")])].

(** A plain field marked Reference, alone and followed by a
    [ReferenceTableField] that is not marked; and that unmarked field
    alone. *)
Definition marked_plain_field : Field :=
  field mm_Integer [("metadata", PStr "reference")].

Definition unmarked_reference_field : Field := field ReferenceTableField [].

Definition marked_then_unmarked : Schema :=
  mkSchema "Mixed"
    [("score", marked_plain_field); ("target_id", unmarked_reference_field)].

Definition marked_alone : Schema :=
  mkSchema "Marked" [("score", marked_plain_field)].

Definition unmarked_alone : Schema :=
  mkSchema "Unmarked" [("target_id", unmarked_reference_field)].

(** A schema that still has a nested field, here one with [drop_column]
    set. *)
Definition nested_schema : Schema :=
  mkSchema "Nested"
    [("category", field mm_String []);
     ("pt", field mm_Nested [("drop_column", PBool true)])].

(** A schema with a field named [__tablename__]. *)
Definition schema_with_tablename : Schema :=
  mkSchema "Named" [("__tablename__", field mm_String [])].

(** A schema with a field of a type the builder does not know. *)
Definition dated_field : Field := field (mm_Other "DateTime") [].

Definition dated_schema : Schema :=
  mkSchema "Dated" [("category", field mm_String []); ("when", dated_field)].

(** A dataset of one table, and of that table followed by one whose
    build fails for want of a [reference_table]. *)
Definition one_table : list (string * string) := [("cell_type", "cells")].

Definition dataset_sample (l : list (string * string))
    (segmentation_source : option string) (include_contacts : bool) :=
  make_dataset_models REFERENCE_sample object_str_sample flatten_sample
    types_sample get_schema_sample Contact_sample "volume" l
    segmentation_source include_contacts (Some ∅) true.

(** The same with segmentation source [seg1] and metadata for the table
    [cells] only. *)
Definition dataset_seg1_sample (l : list (string * string)) :=
  make_dataset_models REFERENCE_sample object_str_sample flatten_sample
    types_sample get_schema_sample Contact_sample "volume" l
    (Some "seg1") false (Some {["cells" := MetaDict base_metadata]}) true.

Definition world_after_dataset : World :=
  Eval vm_compute in (dataset_sample one_table None true World_init).2.

Definition seg1_request : Request :=
  FullRequest "T" scenario (Some "seg1") (MetaDict base_metadata) true.

(** The state after the scenario has been compiled with source [seg1]. *)
Definition world_after_seg1 : World :=
  Eval vm_compute in
    (compile_sample "T" scenario (Some "seg1") (MetaDict base_metadata) true
       World_init).2.

(** * Properties *)

(** [bind_inv H x E]: from [H : (let? x := r in k) = _], the case where
    [r] returned [x]. *)
Ltac bind_inv H x E :=
  match type of H with
  | rbind ?r _ = _ =>
      destruct r as [x |] eqn:E; [cbn [rbind] in H | discriminate H]
  end.

(** ** The loop of [create_table_dict] *)

Section BuilderFacts.

Variable REFERENCE_value : PyVal.
Variable object_str : Entry → string.

Abbreviation validate_metadata := (validate_metadata REFERENCE_value).
Abbreviation add_column := (add_column object_str).
Abbreviation add_field := (add_field REFERENCE_value object_str).
Abbreviation add_fields := (add_fields REFERENCE_value object_str).
Abbreviation create_table_dict := (create_table_dict REFERENCE_value object_str).
Abbreviation is_reference := (is_reference REFERENCE_value).
Abbreviation column_of := (column_of object_str).
Abbreviation compilable := (compilable REFERENCE_value).
Abbreviation reference_resolves := (reference_resolves REFERENCE_value).

Lemma validate_metadata_Ok m f meta m1 :
  validate_metadata m f meta = Ok m1 →
  (¬ is_reference f ∧ m1 = m) ∨
  (is_reference f ∧ ∃ d v, meta = MetaDict d ∧ d !! "reference_table" = Some v
                           ∧ m1 = <[reference_table_name := ERaw v]> m).
Proof.
  unfold validate_metadata, is_reference. intros H.
  case_decide; [right | left; split; congruence].
  split; [done |]. destruct meta as [d | v]; [| done].
  destruct (d !! "reference_table") as [v |] eqn:E; [| done].
  exists d, v. by simplify_eq.
Qed.

Lemma add_column_Ok m k f m' :
  add_column m k f = Ok m' →
  is_Some (field_column_map (field_type f)) ∧
  if decide (field_type f = ReferenceTableField) then
    ∃ popped, m !! reference_table_name = Some popped
              ∧ m' = <[k := EColumn (column_of f popped)]>
                       (delete reference_table_name m)
  else m' = <[k := EColumn (column_of f (ERaw PNone))]> m.
Proof.
  unfold add_column, column_of. intros H.
  destruct (field_type f) eqn:Et; simpl in *; try done;
    (split; [eauto |]); repeat case_decide; try done; simplify_eq; try done.
  destruct (m !! reference_table_name) as [popped |]; [| done].
  exists popped. by simplify_eq.
Qed.

Lemma add_field_dropped meta m k f :
  drop_column f = true → add_field meta m (k, f) = Ok m.
Proof. intros H. unfold add_field. by rewrite H. Qed.

Lemma add_field_retained meta m k f :
  drop_column f = false →
  add_field meta m (k, f) =
    (let? m1 := validate_metadata m f meta in add_column m1 k f).
Proof. intros H. unfold add_field. by rewrite H. Qed.

Lemma add_fields_cons meta m x items :
  add_fields meta m (x :: items) =
    (let? m1 := add_field meta m x in add_fields meta m1 items).
Proof. reflexivity. Qed.

Lemma add_fields_app meta m l1 l2 :
  add_fields meta m (l1 ++ l2) =
    (let? m1 := add_fields meta m l1 in add_fields meta m1 l2).
Proof.
  revert m. induction l1 as [| x l1 IH]; intros m; simpl; [done |].
  destruct (add_field meta m x); simpl; [apply IH | done].
Qed.

(** Where an entry of the dict after one field comes from. *)
Lemma add_field_provenance meta m k f m' k0 e :
  add_field meta m (k, f) = Ok m' →
  m' !! k0 = Some e →
  m !! k0 = Some e
  ∨ (k0 = reference_table_name ∧ ∃ v, e = ERaw v)
  ∨ (k0 = k ∧ drop_column f = false ∧ ∃ c, e = EColumn c).
Proof.
  intros H Hl. destruct (drop_column f) eqn:Ed.
  - rewrite add_field_dropped in H by done. simplify_eq. by left.
  - rewrite add_field_retained in H by done.
    bind_inv H m1 Ev. apply add_column_Ok in H as [_ H].
    destruct (decide (k0 = k)) as [-> |].
    { right; right. split; [done |]. split; [done |].
      case_decide; [destruct H as (p & _ & ->) | subst m'];
        rewrite lookup_insert_eq in Hl; simplify_eq; eauto. }
    assert (m1 !! k0 = Some e) as H1.
    { case_decide; [destruct H as (p & _ & ->) | subst m'];
        rewrite lookup_insert_ne in Hl by done; [| done].
      apply lookup_delete_Some in Hl. tauto. }
    apply validate_metadata_Ok in Ev as [[_ ->] | (_ & d & v & _ & _ & ->)];
      [by left |].
    destruct (decide (k0 = reference_table_name)) as [-> |].
    + rewrite lookup_insert_eq in H1. simplify_eq. right; left. eauto.
    + rewrite lookup_insert_ne in H1 by done. by left.
Qed.

Lemma add_fields_provenance meta items : ∀ m m' k0 e,
  add_fields meta m items = Ok m' →
  m' !! k0 = Some e →
  m !! k0 = Some e
  ∨ (k0 = reference_table_name ∧ ∃ v, e = ERaw v)
  ∨ (∃ f, (k0, f) ∈ items ∧ drop_column f = false ∧ ∃ c, e = EColumn c).
Proof.
  induction items as [| [k f] items IH]; intros m m' k0 e H Hl.
  { simpl in H. simplify_eq. by left. }
  rewrite add_fields_cons in H. bind_inv H m1 E1.
  destruct (IH _ _ _ _ H Hl) as [H1 | [H1 | (f' & Hin & Hd & Hc)]].
  - destruct (add_field_provenance _ _ _ _ _ _ _ E1 H1) as [? | [? | (-> & ? & ?)]];
      [by left | by right; left |].
    right; right. exists f. split; [apply list_elem_of_here | done].
  - by right; left.
  - right; right. exists f'. split; [by apply list_elem_of_further | done].
Qed.

(** A key that is neither a retained field's name nor
    [reference_table_name] keeps what it had. *)
Lemma add_field_lookup_other meta m k f m' k0 :
  add_field meta m (k, f) = Ok m' →
  (drop_column f = false → k ≠ k0) →
  k0 ≠ reference_table_name →
  m' !! k0 = m !! k0.
Proof.
  intros H Hk Hr. destruct (drop_column f) eqn:Ed.
  - rewrite add_field_dropped in H by done. by simplify_eq.
  - rewrite add_field_retained in H by done. specialize (Hk eq_refl).
    bind_inv H m1 Ev. apply add_column_Ok in H as [_ H].
    assert (m1 !! k0 = m !! k0) as <-.
    { apply validate_metadata_Ok in Ev as [[_ ->] | (_ & d & v & _ & _ & ->)];
        [done |]. by rewrite lookup_insert_ne. }
    case_decide; [destruct H as (p & _ & ->) | subst m'];
      rewrite lookup_insert_ne by done; [| done].
    by rewrite lookup_delete_ne.
Qed.

Lemma add_fields_lookup_other meta items : ∀ m m' k0,
  add_fields meta m items = Ok m' →
  (∀ f, (k0, f) ∈ items → drop_column f = true) →
  k0 ≠ reference_table_name →
  m' !! k0 = m !! k0.
Proof.
  induction items as [| [k f] items IH]; intros m m' k0 H Hk Hr.
  { simpl in H. by simplify_eq. }
  rewrite add_fields_cons in H. bind_inv H m1 E1.
  rewrite (IH _ _ _ H); [| | done].
  - eapply add_field_lookup_other; [done | | done].
    intros Hd ->. rewrite (Hk f) in Hd; [done | apply list_elem_of_here].
  - intros f' Hin. apply Hk. by apply list_elem_of_further.
Qed.

(** A retained field leaves a column under its name. *)
Lemma add_field_sets_column meta m k f m' :
  add_field meta m (k, f) = Ok m' →
  drop_column f = false →
  ∃ c, m' !! k = Some (EColumn c).
Proof.
  intros H Hd. rewrite add_field_retained in H by done.
  bind_inv H m1 Ev. apply add_column_Ok in H as [_ H].
  case_decide; [destruct H as (p & _ & ->) | subst m'];
    rewrite lookup_insert_eq; eauto.
Qed.

(** ** What the builder puts in before the fields *)

Lemma create_table_dict_unfold T S seg meta crud :
  create_table_dict T S seg meta crud =
    add_fields meta (initial_model T seg crud) (declared_fields S).
Proof. reflexivity. Qed.

Lemma source_given_Some s : s ≠ "" → source_given (Some s) = Some s.
Proof.
  intros H. unfold source_given, truthy.
  by destruct (String.eqb_spec s "").
Qed.

Lemma header_lookup_Some T seg k e :
  header T seg !! k = Some e →
  (k = tablename_key ∧ ∃ n, e = ERaw (PStr n))
  ∨ (k = id_key ∧ ∃ c, e = EColumn c)
  ∨ (k = mapper_args_key ∧ ∃ a, e = EMapperArgs a).
Proof.
  unfold header, dict_update. intros H.
  destruct (source_given seg); rewrite (right_id_L ∅ (∪)) in H;
    rewrite !lookup_insert_Some, lookup_empty in H; naive_solver.
Qed.

Lemma header_lookup_None T seg k :
  k ∉ header_keys → header T seg !! k = None.
Proof.
  intros Hk. destruct (header T seg !! k) as [e |] eqn:E; [exfalso | done].
  apply Hk. unfold header_keys.
  destruct (header_lookup_Some _ _ _ _ E) as [[-> _] | [[-> _] | [-> _]]];
    set_solver.
Qed.

Lemma crud_columns_lookup_Some k e :
  crud_columns !! k = Some e → k ∈ crud_names ∧ ∃ c, e = EColumn c.
Proof.
  unfold crud_columns, crud_names. intros H.
  rewrite !lookup_insert_Some, lookup_empty in H.
  destruct H as [[<- <-] | [_ [[<- <-] | [_ [[<- <-] | [_ ?]]]]]];
    [| | | done]; (split; [set_solver | eauto]).
Qed.

Lemma crud_columns_lookup_None k :
  k ∉ crud_names → crud_columns !! k = None.
Proof.
  intros Hk. destruct (crud_columns !! k) as [e |] eqn:E; [| done].
  by apply crud_columns_lookup_Some in E as [? _].
Qed.

Lemma initial_model_lookup T seg crud k :
  k ∉ crud_names →
  initial_model T seg crud !! k = header T seg !! k.
Proof.
  intros Hk. unfold initial_model, dict_update. destruct crud; [| done].
  apply lookup_union_r. by apply crud_columns_lookup_None.
Qed.

Lemma initial_model_column T seg crud k c :
  initial_model T seg crud !! k = Some (EColumn c) → k ∈ builder_columns crud.
Proof.
  unfold initial_model, dict_update, builder_columns. intros H.
  assert (header T seg !! k = Some (EColumn c) → k = id_key) as Hh.
  { intros E. apply header_lookup_Some in E. naive_solver. }
  destruct crud.
  - apply lookup_union_Some_raw in H as [H | [_ H]].
    + apply crud_columns_lookup_Some in H as [H _]. set_solver.
    + rewrite (Hh H). set_solver.
  - rewrite (Hh H). set_solver.
Qed.

Lemma initial_model_no_reference T seg crud :
  initial_model T seg crud !! reference_table_name = None.
Proof.
  rewrite initial_model_lookup; [apply header_lookup_None |];
    unfold header_keys, crud_names, reference_table_name, tablename_key,
      id_key, mapper_args_key; set_solver.
Qed.

Lemma unique_field (items : list (string * Field)) k f f' :
  NoDup items.*1 → (k, f) ∈ items → (k, f') ∈ items → f = f'.
Proof.
  induction items as [| [k0 f0] items IH]; simpl; intros Hnd H1 H2.
  { by apply elem_of_nil in H1. }
  apply NoDup_cons in Hnd as [Hnot Hnd].
  apply elem_of_cons in H1 as [H1 | H1], H2 as [H2 | H2]; simplify_eq.
  - done.
  - exfalso. apply Hnot. apply list_elem_of_fmap. by exists (k0, f').
  - exfalso. apply Hnot. apply list_elem_of_fmap. by exists (k0, f).
  - by apply IH.
Qed.

(** ** What each step returns *)

Lemma validate_metadata_plain m f meta :
  ¬ is_reference f → validate_metadata m f meta = Ok m.
Proof. unfold validate_metadata, is_reference. intros H. by case_decide. Qed.

Lemma validate_metadata_reference m f d v :
  is_reference f → d !! "reference_table" = Some v →
  validate_metadata m f (MetaDict d) = Ok (<[reference_table_name := ERaw v]> m).
Proof.
  unfold validate_metadata, is_reference. intros H Hd.
  case_decide; [| done]. by rewrite Hd.
Qed.

Lemma validate_metadata_missing m f meta :
  is_reference f → lacks_reference_table meta →
  ∃ msg, validate_metadata m f meta = Raise (InvalidTableMetaDataException msg).
Proof.
  unfold validate_metadata, is_reference. intros H Hm.
  case_decide; [| done]. destruct meta as [d | v]; simpl in Hm; [| eauto].
  rewrite Hm. eauto.
Qed.

Lemma add_column_supported m k f :
  is_Some (field_column_map (field_type f)) →
  add_column m k f =
    if decide (field_type f = ReferenceTableField) then
      match m !! reference_table_name with
      | Some popped =>
          Ok (<[k := EColumn (column_of f popped)]> (delete reference_table_name m))
      | None => Raise (KeyError reference_table_name)
      end
    else Ok (<[k := EColumn (column_of f (ERaw PNone))]> m).
Proof.
  unfold add_column, column_of. intros [t Ht].
  destruct (field_type f); simpl in *; try done; by repeat case_decide.
Qed.

(** ** Entries the loop does not look at *)

Lemma validate_metadata_frame e m f meta :
  e !! reference_table_name = None →
  validate_metadata (e ∪ m) f meta =
    (let? m1 := validate_metadata m f meta in Ok (e ∪ m1)).
Proof.
  intros He. unfold validate_metadata. case_decide; [| done].
  destruct meta as [d | v]; [| done].
  destruct (d !! "reference_table"); [| done].
  simpl. by rewrite insert_union_r.
Qed.

Lemma add_column_frame e m k f :
  e !! k = None → e !! reference_table_name = None →
  add_column (e ∪ m) k f = (let? m1 := add_column m k f in Ok (e ∪ m1)).
Proof.
  intros Hk He.
  destruct (field_column_map (field_type f)) as [t |] eqn:Et.
  - rewrite !add_column_supported by eauto.
    rewrite lookup_union_r by done.
    case_decide; [| by simpl; rewrite insert_union_r].
    destruct (m !! reference_table_name); [| done]. simpl.
    by rewrite delete_union, (delete_id e), insert_union_r.
  - unfold add_column. by rewrite Et.
Qed.

Lemma add_field_frame meta e m k f :
  (drop_column f = false → e !! k = None) →
  e !! reference_table_name = None →
  add_field meta (e ∪ m) (k, f) =
    (let? m1 := add_field meta m (k, f) in Ok (e ∪ m1)).
Proof.
  intros Hk He. destruct (drop_column f) eqn:Ed.
  - by rewrite !add_field_dropped.
  - rewrite !add_field_retained by done.
    rewrite validate_metadata_frame by done.
    destruct (validate_metadata m f meta); [| done]. simpl.
    by apply add_column_frame; [apply Hk |].
Qed.

Lemma add_fields_frame meta e items : ∀ m,
  (∀ k f, (k, f) ∈ items → drop_column f = false → e !! k = None) →
  e !! reference_table_name = None →
  add_fields meta (e ∪ m) items =
    (let? m1 := add_fields meta m items in Ok (e ∪ m1)).
Proof.
  induction items as [| [k f] items IH]; intros m Hk He; [done |].
  rewrite !add_fields_cons, add_field_frame; [| | done].
  - destruct (add_field meta m (k, f)); [| done]. simpl.
    apply IH; [| done]. intros k' f' Hin. apply Hk. by apply list_elem_of_further.
  - apply Hk, list_elem_of_here.
Qed.

(** ** The entry under [reference_table_name] *)

Lemma add_fields_keeps_reference meta items d v : ∀ m m',
  meta = MetaDict d → d !! "reference_table" = Some v →
  (∀ k f, (k, f) ∈ items → drop_column f = false →
          field_type f ≠ ReferenceTableField ∧ k ≠ reference_table_name) →
  add_fields meta m items = Ok m' →
  m !! reference_table_name = Some (ERaw v) →
  m' !! reference_table_name = Some (ERaw v).
Proof.
  intros m m' -> Hd. revert m.
  induction items as [| [k f] items IH]; intros m Hk H Hm.
  { simpl in H. by simplify_eq. }
  rewrite add_fields_cons in H. bind_inv H m1 E1.
  apply (IH m1); [| done |].
  { intros k' f' Hin. apply Hk. by apply list_elem_of_further. }
  destruct (drop_column f) eqn:Ed.
  { rewrite add_field_dropped in E1 by done. by simplify_eq. }
  destruct (Hk k f (list_elem_of_here _ _) Ed) as [Ht Hne].
  rewrite add_field_retained in E1 by done. bind_inv E1 m2 Ev.
  apply add_column_Ok in E1 as [_ E1]. rewrite decide_False in E1 by done.
  subst m1. rewrite lookup_insert_ne by done.
  apply validate_metadata_Ok in Ev as [[_ ->] | (_ & d' & v' & ? & Hv & ->)];
    [done |].
  simplify_eq. by rewrite lookup_insert_eq.
Qed.

Lemma add_fields_no_reference meta items : ∀ m,
  (∀ k f, (k, f) ∈ items → drop_column f = false →
          is_Some (field_column_map (field_type f)) ∧ ¬ is_reference f
          ∧ k ≠ reference_table_name) →
  m !! reference_table_name = None →
  add_fields meta m items = Raise (KeyError reference_table_name)
  ∨ ∃ m1, add_fields meta m items = Ok m1 ∧ m1 !! reference_table_name = None.
Proof.
  induction items as [| [k f] items IH]; intros m Hk Hm.
  { right. by exists m. }
  rewrite add_fields_cons.
  assert (∀ k' f', (k', f') ∈ items → drop_column f' = false →
            is_Some (field_column_map (field_type f')) ∧ ¬ is_reference f'
            ∧ k' ≠ reference_table_name) as Hk'.
  { intros k' f' Hin. apply Hk. by apply list_elem_of_further. }
  destruct (drop_column f) eqn:Ed.
  { rewrite add_field_dropped by done. simpl. by apply IH. }
  destruct (Hk k f (list_elem_of_here _ _) Ed) as (Hs & Hr & Hne).
  rewrite add_field_retained, validate_metadata_plain by done. simpl.
  rewrite add_column_supported by done.
  case_decide; [rewrite Hm; by left |]. simpl.
  apply IH; [done |]. by rewrite lookup_insert_ne.
Qed.

(** ** Schemas that compile *)





(** With a Reference field to compile and no [reference_table] to be
    had, the loop ends in the table-metadata error. *)
Lemma add_fields_missing_reference meta items : ∀ m,
  lacks_reference_table meta →
  (∀ k f, (k, f) ∈ items → drop_column f = false → compilable f) →
  (∃ k f, (k, f) ∈ items ∧ drop_column f = false ∧ is_reference f) →
  ∃ msg, add_fields meta m items = Raise (InvalidTableMetaDataException msg).
Proof.
  induction items as [| [k f] items IH]; intros m Hm Hc (k0 & f0 & Hin & Hd & Hr).
  { by apply elem_of_nil in Hin. }
  rewrite add_fields_cons.
  assert (∀ k' f', (k', f') ∈ items → drop_column f' = false → compilable f')
    as Hc'.
  { intros k' f' Hin'. apply (Hc k' f'). by apply list_elem_of_further. }
  destruct (drop_column f) eqn:Ed.
  { rewrite add_field_dropped by done. cbn [rbind]. apply IH; [done | done |].
    apply elem_of_cons in Hin as [Hin | Hin];
      [simplify_eq; congruence | by exists k0, f0]. }
  rewrite add_field_retained by done.
  destruct (decide (is_reference f)) as [Hf | Hf].
  { destruct (validate_metadata_missing m f meta Hf Hm) as [msg ->]. eauto. }
  rewrite validate_metadata_plain by done. cbn [rbind].
  destruct (Hc k f (list_elem_of_here _ _) Ed) as [Hs Ht].
  rewrite add_column_supported, decide_False by tauto. cbn [rbind].
  apply IH; [done | done |].
  apply elem_of_cons in Hin as [Hin | Hin];
    [by simplify_eq | by exists k0, f0].
Qed.

(** ** The emitted table dict *)

(** C3 (amended). For every table dict built with a non-empty
    segmentation source from a schema none of whose retained fields is
    named [__tablename__], [id] or [__mapper_args__]: the table name is
    [<table_name>__<segmentation_source>], the [id] column is a
    big-integer primary key with a foreign key to [<table_name>.id], the
    polymorphic identity is the compound name and the mapper args mark
    the table as concrete. *)
Theorem segmentation_table_header T S s meta crud m :
  s ≠ "" →
  (∀ k f, (k, f) ∈ declared_fields S → drop_column f = false →
          k ∉ header_keys) →
  create_table_dict T S (Some s) meta crud = Ok m →
  m !! tablename_key = Some (ERaw (PStr (T +:+ "__" +:+ s)))
  ∧ m !! id_key =
      Some (EColumn (mkColumn BigInteger (Some (T +:+ ".id")) true PNone None))
  ∧ m !! mapper_args_key =
      Some (EMapperArgs (mkMapperArgs (T +:+ "__" +:+ s) true)).
Proof.
  intros Hs Hk H. rewrite create_table_dict_unfold in H.
  assert (∀ k0, k0 ∈ header_keys →
            m !! k0 = header T (Some s) !! k0) as Hl.
  { intros k0 Hin.
    rewrite (add_fields_lookup_other _ _ _ _ _ H).
    - apply initial_model_lookup. revert Hin.
      unfold header_keys, crud_names, tablename_key, id_key, mapper_args_key.
      set_solver.
    - intros f Hf. destruct (drop_column f) eqn:Ed; [done |].
      by destruct (Hk _ _ Hf Ed).
    - revert Hin.
      unfold header_keys, reference_table_name, tablename_key, id_key,
        mapper_args_key. set_solver. }
  rewrite !Hl by (unfold header_keys; set_solver).
  unfold header. rewrite source_given_Some by done.
  unfold dict_update. rewrite (right_id_L ∅ (∪)). done.
Qed.

(** C5 (amended). When audit columns are requested and no retained
    field is named [created], [deleted] or [superceded_id], the emitted
    table dict is the one built without audit columns plus exactly
    three entries: [created] (timestamp, indexed, not nullable),
    [deleted] (timestamp, indexed, nullable by default) and
    [superceded_id] (big integer, nullable by default). *)
Theorem crud_columns_added T S seg meta m :
  (∀ k f, (k, f) ∈ declared_fields S → drop_column f = false →
          k ∉ crud_names) →
  create_table_dict T S seg meta true = Ok m →
  m !! "created" =
    Some (EColumn (mkColumn DateTime None false (PBool true) (Some false)))
  ∧ m !! "deleted" =
      Some (EColumn (mkColumn DateTime None false (PBool true) None))
  ∧ m !! "superceded_id" =
      Some (EColumn (mkColumn BigInteger None false PNone None))
  ∧ ∃ m0, create_table_dict T S seg meta false = Ok m0
          ∧ (∀ k, k ∈ crud_names → m0 !! k = None)
          ∧ (∀ k, k ∉ crud_names → m !! k = m0 !! k)
          ∧ size m = size m0 + 3.
Proof.
  intros Hk H. rewrite create_table_dict_unfold in *.
  unfold initial_model, dict_update in H.
  rewrite add_fields_frame in H; [| | done].
  2:{ intros k f Hin Hd. apply crud_columns_lookup_None. by eapply Hk. }
  fold (initial_model T seg false) in H. bind_inv H mb E0. simplify_eq.
  assert (∀ k, k ∈ crud_names → mb !! k = None) as Hnone.
  { intros k Hin. destruct (mb !! k) as [e |] eqn:E; [exfalso | done].
    destruct (add_fields_provenance _ _ _ _ _ _ E0 E)
      as [H1 | [[-> _] | (f & Hf & Hd & _)]].
    - change (initial_model T seg false) with (header T seg) in H1.
      apply header_lookup_Some in H1. revert Hin.
      unfold crud_names, tablename_key, id_key, mapper_args_key.
      destruct H1 as [[-> _] | [[-> _] | [-> _]]]; set_solver.
    - revert Hin. unfold crud_names, reference_table_name. set_solver.
    - by apply (Hk _ _ Hf Hd). }
  assert (∀ k, k ∈ crud_names → (crud_columns ∪ mb) !! k = crud_columns !! k)
    as Hc.
  { intros k Hin. rewrite lookup_union_l; [done | by apply Hnone]. }
  rewrite !Hc by (unfold crud_names; set_solver).
  do 3 (split; [done |]).
  exists mb. split; [done |]. split; [done |]. split.
  - intros k Hout. apply lookup_union_r. by apply crud_columns_lookup_None.
  - rewrite map_size_disj_union.
    + by rewrite Nat.add_comm.
    + apply map_disjoint_spec. intros k x y Hx Hy.
      apply crud_columns_lookup_Some in Hx as [Hx _].
      rewrite (Hnone _ Hx) in Hy. done.
Qed.

(** C7 (amended). In the emitted table dict of a schema: a field with
    [drop_column] set has no column under its name unless the name is
    one of the builder's own columns ([id] and, with audit columns,
    [created], [deleted], [superceded_id]); every field without
    [drop_column], other than one named [reference_table_name], has a
    column under its name; and every column is either one of the
    builder's own or that of a retained field. *)
Theorem dropped_fields_omitted T S seg meta crud m :
  NoDup (declared_fields S).*1 →
  create_table_dict T S seg meta crud = Ok m →
  (∀ k f, (k, f) ∈ declared_fields S → drop_column f = true →
          k ∉ builder_columns crud → ∀ c, m !! k ≠ Some (EColumn c))
  ∧ (∀ k f, (k, f) ∈ declared_fields S → drop_column f = false →
            k ≠ reference_table_name → ∃ c, m !! k = Some (EColumn c))
  ∧ (∀ k c, m !! k = Some (EColumn c) →
            k ∈ builder_columns crud
            ∨ ∃ f, (k, f) ∈ declared_fields S ∧ drop_column f = false).
Proof.
  intros Hnd H. rewrite create_table_dict_unfold in H.
  assert (∀ k c, m !! k = Some (EColumn c) →
            k ∈ builder_columns crud
            ∨ ∃ f, (k, f) ∈ declared_fields S ∧ drop_column f = false) as H3.
  { intros k c Hl.
    destruct (add_fields_provenance _ _ _ _ _ _ H Hl)
      as [H1 | [[_ [v ?]] | (f & Hf & Hd & _)]]; [| done | eauto].
    left. by eapply initial_model_column. }
  split; [| split; [| done]].
  - intros k f Hf Hd Hk c Hl.
    destruct (H3 _ _ Hl) as [? | (f' & Hf' & Hd')]; [done |].
    rewrite (unique_field _ _ _ _ Hnd Hf Hf') in Hd. congruence.
  - intros k f Hf Hd Hk.
    apply list_elem_of_split in Hf as (pre & post & Heq).
    rewrite Heq in H, Hnd.
    rewrite add_fields_app in H. bind_inv H m1 E1.
    rewrite add_fields_cons in H. bind_inv H m2 E2.
    destruct (add_field_sets_column _ _ _ _ _ E2 Hd) as [c Hc].
    exists c. rewrite <- Hc.
    apply (add_fields_lookup_other _ _ _ _ _ H); [| done].
    intros f' Hf'. exfalso.
    rewrite fmap_app, fmap_cons in Hnd.
    apply NoDup_app in Hnd as (_ & _ & Hnd).
    apply NoDup_cons in Hnd as [Hnot _]. apply Hnot.
    apply list_elem_of_fmap. by exists (k, f').
Qed.

(** C9 (amended). A retained field marked Reference whose type is not
    [ReferenceTableField] leaves [reference_table_name], mapped to the
    raw [reference_table] value, in the emitted table dict, provided no
    retained field after it is a [ReferenceTableField] and neither it
    nor a later one is named [reference_table_name]. A retained
    [ReferenceTableField] not marked Reference makes the build raise
    [KeyError] on the pop, provided the retained fields before it have
    supported types, are not marked Reference and are not named
    [reference_table_name]. *)
Theorem reference_table_name_entry T S seg meta crud pre k f post :
  declared_fields S = (pre ++ (k, f) :: post)%list →
  drop_column f = false →
  (is_reference f → field_type f ≠ ReferenceTableField →
   k ≠ reference_table_name →
   (∀ k' f', (k', f') ∈ post → drop_column f' = false →
             field_type f' ≠ ReferenceTableField ∧ k' ≠ reference_table_name) →
   ∀ m, create_table_dict T S seg meta crud = Ok m →
        ∃ d v, meta = MetaDict d ∧ d !! "reference_table" = Some v
               ∧ m !! reference_table_name = Some (ERaw v))
  ∧ (¬ is_reference f → field_type f = ReferenceTableField →
     (∀ k' f', (k', f') ∈ pre → drop_column f' = false →
               is_Some (field_column_map (field_type f')) ∧ ¬ is_reference f'
               ∧ k' ≠ reference_table_name) →
     create_table_dict T S seg meta crud = Raise (KeyError reference_table_name)).
Proof.
  intros Heq Hd. rewrite create_table_dict_unfold, Heq, add_fields_app.
  split.
  - intros Hr Ht Hk Hpost m H.
    bind_inv H m1 E1. rewrite add_fields_cons in H. bind_inv H m2 E2.
    rewrite add_field_retained in E2 by done. bind_inv E2 m3 Ev.
    apply validate_metadata_Ok in Ev as [[? _] | (_ & d & v & -> & Hv & ->)];
      [done |].
    exists d, v. split; [done |]. split; [done |].
    eapply add_fields_keeps_reference; [done | done | done | done |].
    apply add_column_Ok in E2 as [_ E2]. rewrite decide_False in E2 by done.
    subst m2. rewrite lookup_insert_ne by done. apply lookup_insert_eq.
  - intros Hr Ht Hpre.
    destruct (add_fields_no_reference meta pre (initial_model T seg crud) Hpre
                (initial_model_no_reference _ _ _)) as [-> | (m1 & -> & Hm1)];
      [done |].
    cbn [rbind]. rewrite add_fields_cons, add_field_retained by done.
    rewrite validate_metadata_plain by done. cbn [rbind].
    rewrite add_column_supported by (rewrite Ht; eauto).
    rewrite decide_True by done. by rewrite Hm1.
Qed.

(** ** More on the emitted table dict *)

(** Without a segmentation source, and with no retained field named
    [__tablename__], [id] or [__mapper_args__]: the table keeps its name,
    [id] is a plain big-integer primary key, and the polymorphic identity
    is the table name, in a concrete mapping. *)
Theorem base_table_header T S seg meta crud m :
  source_given seg = None →
  (∀ k f, (k, f) ∈ declared_fields S → drop_column f = false →
          k ∉ header_keys) →
  create_table_dict T S seg meta crud = Ok m →
  m !! tablename_key = Some (ERaw (PStr T))
  ∧ m !! id_key = Some (EColumn (mkColumn BigInteger None true PNone None))
  ∧ m !! mapper_args_key = Some (EMapperArgs (mkMapperArgs T true)).
Proof.
  intros Hs Hk H. rewrite create_table_dict_unfold in H.
  assert (∀ k0, k0 ∈ header_keys → m !! k0 = header T seg !! k0) as Hl.
  { intros k0 Hin.
    rewrite (add_fields_lookup_other _ _ _ _ _ H).
    - apply initial_model_lookup. revert Hin.
      unfold header_keys, crud_names, tablename_key, id_key, mapper_args_key.
      set_solver.
    - intros f Hf. destruct (drop_column f) eqn:Ed; [done |].
      by destruct (Hk _ _ Hf Ed).
    - revert Hin.
      unfold header_keys, reference_table_name, tablename_key, id_key,
        mapper_args_key. set_solver. }
  rewrite !Hl by (unfold header_keys; set_solver).
  unfold header. rewrite Hs.
  unfold dict_update. rewrite (right_id_L ∅ (∪)). done.
Qed.

Lemma add_fields_retained meta items : ∀ m,
  add_fields meta m items
  = add_fields meta m (filter (λ item, drop_column item.2 = false) items).
Proof.
  induction items as [| [k f] items IH]; intros m; [done |].
  destruct (drop_column f) eqn:Ed.
  - rewrite filter_cons_False by (simpl; congruence).
    rewrite add_fields_cons, add_field_dropped by done. apply IH.
  - rewrite filter_cons_True by done. rewrite !add_fields_cons.
    destruct (add_field meta m (k, f)); [apply IH | done].
Qed.

(** Dropped fields are inert: the dict built from a schema is the one
    built from the schema without its [drop_column] fields, error for
    error. *)
Theorem dropped_fields_inert T S seg meta crud :
  create_table_dict T S seg meta crud
  = create_table_dict T (without_dropped S) seg meta crud.
Proof. rewrite !create_table_dict_unfold. apply add_fields_retained. Qed.

Lemma add_field_resolves meta m k f :
  drop_column f = false → compilable f → reference_resolves meta f →
  ∃ m', add_field meta m (k, f) = Ok m'.
Proof.
  intros Hd [Hs Hr] Hm. rewrite add_field_retained by done.
  destruct (decide (is_reference f)) as [Hf | Hf].
  - destruct meta as [d | v]; [| by destruct (Hm Hf)].
    destruct (d !! "reference_table") as [v |] eqn:Ev; [| by destruct (Hm Hf)].
    rewrite (validate_metadata_reference _ _ _ _ Hf Ev). cbn [rbind].
    rewrite add_column_supported by done.
    case_decide; [rewrite lookup_insert_eq |]; eauto.
  - rewrite validate_metadata_plain by done. cbn [rbind].
    rewrite add_column_supported, decide_False by tauto. eauto.
Qed.

Lemma add_fields_resolves meta items : ∀ m,
  (∀ k f, (k, f) ∈ items → drop_column f = false →
          compilable f ∧ reference_resolves meta f) →
  ∃ m', add_fields meta m items = Ok m'.
Proof.
  induction items as [| [k f] items IH]; intros m Hc; [by exists m |].
  rewrite add_fields_cons.
  assert (∃ m1, add_field meta m (k, f) = Ok m1) as [m1 ->].
  { destruct (drop_column f) eqn:Ed.
    - rewrite add_field_dropped by done. eauto.
    - destruct (Hc k f (list_elem_of_here _ _) Ed).
      by apply add_field_resolves. }
  cbn [rbind]. apply IH.
  intros k' f' Hin. apply (Hc k' f'). by apply list_elem_of_further.
Qed.

(** The builder never drops a field silently: when the fields before it
    compile, a retained field whose type is not in [field_column_map]
    (a nested field among them) makes the build raise
    [InvalidSchemaField] naming that type. *)
Theorem unsupported_field_type T S seg meta crud pre k f post :
  declared_fields S = (pre ++ (k, f) :: post)%list →
  (∀ k' f', (k', f') ∈ pre → drop_column f' = false →
            compilable f' ∧ reference_resolves meta f') →
  drop_column f = false →
  reference_resolves meta f →
  field_column_map (field_type f) = None →
  create_table_dict T S seg meta crud
  = Raise (InvalidSchemaField
             [Lit "field type "; FmtFieldType (field_type f);
              Lit " not supported"]).
Proof.
  intros Heq Hpre Hd Hm Ht.
  rewrite create_table_dict_unfold, Heq, add_fields_app.
  destruct (add_fields_resolves meta pre (initial_model T seg crud) Hpre)
    as [m1 ->].
  cbn [rbind]. rewrite add_fields_cons, add_field_retained by done.
  assert (∃ m2, validate_metadata m1 f meta = Ok m2) as [m2 ->].
  { destruct (decide (is_reference f)) as [Hf | Hf].
    - destruct meta as [d | v]; [| by destruct (Hm Hf)].
      destruct (d !! "reference_table") as [v |] eqn:Ev; [| by destruct (Hm Hf)].
      rewrite (validate_metadata_reference _ _ _ _ Hf Ev). eauto.
    - rewrite validate_metadata_plain by done. eauto. }
  cbn [rbind]. unfold add_column. by rewrite Ht.
Qed.

Lemma add_field_plain_column meta m k f m' :
  add_field meta m (k, f) = Ok m' →
  drop_column f = false →
  field_type f ≠ ReferenceTableField →
  m' !! k = Some (EColumn (column_of f (ERaw PNone))).
Proof.
  intros H Hd Ht. rewrite add_field_retained in H by done.
  bind_inv H m1 Ev. apply add_column_Ok in H as [_ H].
  rewrite decide_False in H by done. subst m'. apply lookup_insert_eq.
Qed.

Lemma later_fields_keep meta (pre : list (string * Field)) k (f : Field) post
    m m1 :
  NoDup ((pre ++ (k, f) :: post)%list).*1 →
  k ≠ reference_table_name →
  add_fields meta m1 post = Ok m →
  m !! k = m1 !! k.
Proof.
  intros Hnd Hk H.
  apply (add_fields_lookup_other _ _ _ _ _ H); [| done].
  intros f' Hf'. exfalso.
  rewrite fmap_app, fmap_cons in Hnd.
  apply NoDup_app in Hnd as (_ & _ & Hnd).
  apply NoDup_cons in Hnd as [Hnot _]. apply Hnot.
  apply list_elem_of_fmap. by exists (k, f').
Qed.

(** The type mapping. In an emitted dict, a retained field that is not a
    [ReferenceTableField] has under its name a column that is neither a
    primary key nor a foreign key: for a [PostGISField] a 3-dimensional
    geometry of the field's [postgis_geometry] ([POINTZ] when absent),
    its N-D index flag being the field's [index], the column itself not
    indexed; for any other type the SQL type of [field_column_map],
    indexed by the field's [index] ([False] when absent). *)
Theorem plain_field_column T S seg meta crud m k f :
  NoDup (declared_fields S).*1 →
  create_table_dict T S seg meta crud = Ok m →
  (k, f) ∈ declared_fields S →
  drop_column f = false →
  k ≠ reference_table_name →
  field_type f ≠ ReferenceTableField →
  (field_type f = PostGISField →
   m !! k =
     Some (EColumn
             (mkColumn
                (Geometry
                   (dict_get (metadata f) "postgis_geometry" (PStr "POINTZ")) 3
                   (dict_get (metadata f) "index" (PBool false)))
                None false PNone None)))
  ∧ (field_type f ≠ PostGISField →
     ∃ sql_type,
       field_column_map (field_type f) = Some sql_type
       ∧ m !! k =
           Some (EColumn
                   (mkColumn sql_type None false
                      (dict_get (metadata f) "index" (PBool false)) None))).
Proof.
  intros Hnd H Hin Hd Hk Ht. rewrite create_table_dict_unfold in H.
  apply list_elem_of_split in Hin as (pre & post & Heq).
  rewrite Heq in H, Hnd.
  rewrite add_fields_app in H. bind_inv H m1 E1.
  rewrite add_fields_cons in H. bind_inv H m2 E2.
  rewrite (later_fields_keep _ _ _ _ _ _ _ Hnd Hk H).
  rewrite (add_field_plain_column _ _ _ _ _ E2 Hd Ht).
  assert (is_Some (field_column_map (field_type f))) as [sql_type Hsql].
  { rewrite add_field_retained in E2 by done. bind_inv E2 m3 Ev.
    by apply add_column_Ok in E2 as [? _]. }
  unfold column_of. split.
  - by intros ->.
  - intros Hp. exists sql_type. split; [done |].
    destruct (field_type f); simpl in Hsql; by simplify_eq.
Qed.

(** A retained [ReferenceTableField] marked Reference has, in an emitted
    dict, a big-integer column under its name with a foreign key to
    [<reference_table>.id], the [reference_table] being that of the table
    metadata, indexed by the field's [index]. *)
Theorem reference_field_column T S seg meta crud m k f :
  NoDup (declared_fields S).*1 →
  create_table_dict T S seg meta crud = Ok m →
  (k, f) ∈ declared_fields S →
  drop_column f = false →
  k ≠ reference_table_name →
  field_type f = ReferenceTableField →
  is_reference f →
  ∃ d v, meta = MetaDict d ∧ d !! "reference_table" = Some v
         ∧ m !! k =
             Some (EColumn
                     (mkColumn BigInteger (Some (py_str v +:+ ".id")) false
                        (dict_get (metadata f) "index" (PBool false)) None)).
Proof.
  intros Hnd H Hin Hd Hk Ht Hr. rewrite create_table_dict_unfold in H.
  apply list_elem_of_split in Hin as (pre & post & Heq).
  rewrite Heq in H, Hnd.
  rewrite add_fields_app in H. bind_inv H m1 E1.
  rewrite add_fields_cons in H. bind_inv H m2 E2.
  rewrite (later_fields_keep _ _ _ _ _ _ _ Hnd Hk H).
  rewrite add_field_retained in E2 by done. bind_inv E2 m3 Ev.
  apply validate_metadata_Ok in Ev as [[? _] | (_ & d & v & -> & Hv & ->)];
    [done |].
  exists d, v. split; [done |]. split; [done |].
  apply add_column_Ok in E2 as [_ E2]. rewrite decide_True in E2 by done.
  destruct E2 as (popped & Hp & ->).
  rewrite lookup_insert_eq in Hp. simplify_eq.
  rewrite lookup_insert_eq. unfold column_of. by rewrite Ht.
Qed.

Lemma add_fields_reference_consumed meta items : ∀ m m',
  (∀ k f, (k, f) ∈ items → drop_column f = false →
          k ≠ reference_table_name
          ∧ (is_reference f → field_type f = ReferenceTableField)) →
  add_fields meta m items = Ok m' →
  m !! reference_table_name = None →
  m' !! reference_table_name = None.
Proof.
  induction items as [| [k f] items IH]; intros m m' Hk H Hm.
  { simpl in H. by simplify_eq. }
  rewrite add_fields_cons in H. bind_inv H m1 E1.
  apply (IH m1); [| done |].
  { intros k' f' Hin. apply (Hk k' f'). by apply list_elem_of_further. }
  destruct (drop_column f) eqn:Ed.
  { rewrite add_field_dropped in E1 by done. by simplify_eq. }
  destruct (Hk k f (list_elem_of_here _ _) Ed) as [Hne Href].
  rewrite add_field_retained in E1 by done. bind_inv E1 m2 Ev.
  apply add_column_Ok in E1 as [_ E1].
  apply validate_metadata_Ok in Ev as [[_ ->] | (Hr & d & v & _ & _ & ->)].
  - case_decide; [destruct E1 as (p & Hp & _); congruence |].
    subst m1. by rewrite lookup_insert_ne.
  - rewrite decide_True in E1 by auto. destruct E1 as (p & _ & ->).
    rewrite lookup_insert_ne by done. apply lookup_delete_eq.
Qed.

(** When every retained field marked Reference is a
    [ReferenceTableField] and none is named [reference_table_name], the
    working entry [reference_table_name] is consumed: an emitted dict
    has no such key. *)
Theorem no_reference_entry_left T S seg meta crud m :
  (∀ k f, (k, f) ∈ declared_fields S → drop_column f = false →
          k ≠ reference_table_name
          ∧ (is_reference f → field_type f = ReferenceTableField)) →
  create_table_dict T S seg meta crud = Ok m →
  m !! reference_table_name = None.
Proof.
  intros Hk H. rewrite create_table_dict_unfold in H.
  eapply add_fields_reference_consumed; [exact Hk | exact H |].
  apply initial_model_no_reference.
Qed.

Lemma add_fields_keys_kept meta items : ∀ m m' k0,
  add_fields meta m items = Ok m' →
  k0 ≠ reference_table_name →
  is_Some (m !! k0) → is_Some (m' !! k0).
Proof.
  induction items as [| [k f] items IH]; intros m m' k0 H Hk Hs.
  { simpl in H. by simplify_eq. }
  rewrite add_fields_cons in H. bind_inv H m1 E1.
  apply (IH m1); [done | done |].
  destruct (decide (k0 = k)) as [-> | Hne].
  - destruct (drop_column f) eqn:Ed.
    + rewrite add_field_dropped in E1 by done. by simplify_eq.
    + destruct (add_field_sets_column _ _ _ _ _ E1 Ed) as [c ->]. eauto.
  - by rewrite (add_field_lookup_other _ _ _ _ _ _ E1).
Qed.

Lemma initial_model_keys T seg crud k :
  is_Some (initial_model T seg crud !! k)
  ↔ k ∈ header_keys ∨ (crud = true ∧ k ∈ crud_names).
Proof.
  assert (is_Some (header T seg !! k) ↔ k ∈ header_keys) as Hh.
  { split.
    - intros [e He]. unfold header_keys.
      destruct (header_lookup_Some _ _ _ _ He) as [[-> _] | [[-> _] | [-> _]]];
        set_solver.
    - intros Hin. unfold header, dict_update.
      destruct (source_given seg); rewrite (right_id_L ∅ (∪));
        unfold header_keys in Hin;
        apply elem_of_cons in Hin as [-> | Hin]; [by eexists | | by eexists |];
        (apply elem_of_cons in Hin as [-> | Hin]; [by eexists |]);
        (apply elem_of_cons in Hin as [-> | Hin]; [by eexists |]);
        by apply elem_of_nil in Hin. }
  assert (is_Some (crud_columns !! k) ↔ k ∈ crud_names) as Hc.
  { split.
    - intros [e He]. by apply crud_columns_lookup_Some in He as [? _].
    - intros Hin. unfold crud_names in Hin.
      apply elem_of_cons in Hin as [-> | Hin]; [by eexists |].
      apply elem_of_cons in Hin as [-> | Hin]; [by eexists |].
      apply elem_of_cons in Hin as [-> | Hin]; [by eexists |].
      by apply elem_of_nil in Hin. }
  unfold initial_model, dict_update. destruct crud.
  - rewrite lookup_union_is_Some, Hh, Hc. naive_solver.
  - rewrite Hh. naive_solver.
Qed.

Lemma create_table_dict_keys T S seg meta crud m k :
  create_table_dict T S seg meta crud = Ok m →
  k ≠ reference_table_name →
  (is_Some (m !! k)
   ↔ k ∈ header_keys
     ∨ (crud = true ∧ k ∈ crud_names)
     ∨ ∃ f, (k, f) ∈ declared_fields S ∧ drop_column f = false).
Proof.
  intros H Hk. rewrite create_table_dict_unfold in H. split.
  - intros [e He].
    destruct (add_fields_provenance _ _ _ _ _ _ H He)
      as [H1 | [[? _] | (f & Hf & Hd & _)]]; [| done | eauto].
    assert (is_Some (initial_model T seg crud !! k)) as Hs by eauto.
    apply initial_model_keys in Hs. tauto.
  - intros [Hin | [Hin | (f & Hf & Hd)]].
    + eapply add_fields_keys_kept; [exact H | done |].
      apply initial_model_keys. by left.
    + eapply add_fields_keys_kept; [exact H | done |].
      apply initial_model_keys. by right.
    + apply list_elem_of_split in Hf as (pre & post & Heq).
      rewrite Heq, add_fields_app in H. bind_inv H m1 E1.
      rewrite add_fields_cons in H. bind_inv H m2 E2.
      eapply add_fields_keys_kept; [exact H | done |].
      destruct (add_field_sets_column _ _ _ _ _ E2 Hd) as [c ->]. eauto.
Qed.

(** The keys of an emitted dict, [reference_table_name] apart, are
    exactly the three header keys, the three audit names when audit
    columns are requested, and the names of the retained fields. *)
Theorem emitted_keys T S seg meta crud m k :
  create_table_dict T S seg meta crud = Ok m →
  k ≠ reference_table_name →
  (is_Some (m !! k)
   ↔ k ∈ header_keys
     ∨ (crud = true ∧ k ∈ crud_names)
     ∨ ∃ f, (k, f) ∈ declared_fields S ∧ drop_column f = false).
Proof. apply create_table_dict_keys. Qed.

(** ** The primary key *)





End BuilderFacts.

(** ** The registry and the entry points *)

Section CompilerFacts.

Set Default Proof Using "Type".

Variable REFERENCE_value : PyVal.
Variable object_str : Entry → string.
Variable create_flattened_schema : Schema → Schema.
Variable get_types : list string.
Variable get_schema : string → Result Schema.
Variable Contact : Schema.

Abbreviation create_table_dict := (create_table_dict REFERENCE_value object_str).
Abbreviation split_annotation_schema :=
  (split_annotation_schema create_flattened_schema).
Abbreviation make_model_from_schema :=
  (make_model_from_schema REFERENCE_value object_str create_flattened_schema).
Abbreviation make_flat_model_from_schema :=
  (make_flat_model_from_schema REFERENCE_value object_str create_flattened_schema).
Abbreviation make_sqlalchemy_model :=
  (make_sqlalchemy_model REFERENCE_value object_str create_flattened_schema
     get_schema).
Abbreviation validate_types := (validate_types get_types).
Abbreviation builder :=
  (builder REFERENCE_value object_str create_flattened_schema).
Abbreviation compile :=
  (compile REFERENCE_value object_str create_flattened_schema).
Abbreviation run_requests :=
  (run_requests REFERENCE_value object_str create_flattened_schema).
Abbreviation build_log :=
  (build_log REFERENCE_value object_str create_flattened_schema).
Abbreviation builder_runs :=
  (builder_runs REFERENCE_value object_str create_flattened_schema).
Abbreviation make_dataset_models :=
  (make_dataset_models REFERENCE_value object_str create_flattened_schema
     get_types get_schema Contact).

Lemma contains_model_lookup s T flat :
  contains_model s T flat
  = bool_decide (is_Some ((if flat then flat_container s else container s) !! T)).
Proof.
  unfold contains_model. destruct flat; apply bool_decide_ext, elem_of_dom.
Qed.

Lemma make_model_from_schema_cached T S seg meta crud w x :
  container (sqlalchemy_models w) !! T = Some x →
  make_model_from_schema T S seg meta crud w = (Ok x, w).
Proof.
  intros H. unfold make_model_from_schema, bind, registry_contains, registry_get.
  rewrite contains_model_lookup, bool_decide_eq_true_2 by eauto. simpl.
  unfold get_model. by rewrite H.
Qed.

(** What [type] does to the state: it refuses and leaves it, or it
    defines the Table, and then returns the class or raises for want of
    a primary key. *)
Lemma type__cases name base dict w :
  (∃ e, type_ name base dict w = (Raise e, w))
  ∨ (∃ e, type_ name base dict w
          = (Raise e,
             mkWorld (classes w) (sqlalchemy_models w)
                     (define_table base dict (tables w))))
  ∨ type_ name base dict w
    = (Ok (length (classes w)),
       mkWorld (classes w ++ [mkModelClass name base dict])
               (sqlalchemy_models w) (define_table base dict (tables w))).
Proof.
  unfold type_. destruct (is_column _); [eauto |].
  destruct (table_clash _ _ _); [eauto |].
  destruct (has_primary_key dict); eauto.
Qed.


Lemma store_result_type_ T flat name base dict w :
  (∃ e w1, store_result T flat (type_ name base dict w) = (Raise e, w1)
           ∧ classes w1 = classes w
           ∧ sqlalchemy_models w1 = sqlalchemy_models w)
  ∨ store_result T flat (type_ name base dict w)
    = (Ok (length (classes w)),
       store_class T flat (mkModelClass name base dict) w).
Proof.
  destruct (type__cases name base dict w) as [[e ->] | [[e ->] | ->]];
    [left; by exists e, w | left; by eexists e, _ | by right].
Qed.



(** A request whose key has no entry runs the builder, once, and stores
    what it returns. *)
Lemma make_model_from_schema_miss T S seg meta crud w :
  container (sqlalchemy_models w) !! T = None →
  make_model_from_schema T S seg meta crud w
  = store_result T false (builder (FullRequest T S seg meta crud) w).
Proof.
  intros H. unfold make_model_from_schema, registry_contains, registry_get.
  unfold bind at 1 2.
  rewrite contains_model_lookup, bool_decide_eq_false_2
    by (rewrite H; by intros [? ?]).
  simpl. unfold bind, lift.
  destruct (split_annotation_schema S) as [schemas |]; [| done].
  destruct (source_given seg);
    (destruct (create_sqlalchemy_model _ _ _ _ _ _ _ w) as [[model | e] w1];
     [| done]);
    unfold registry_set, store_result, get_model; simpl;
    by rewrite lookup_insert_eq.
Qed.

Lemma make_model_from_schema_fresh T S seg meta crud w :
  container (sqlalchemy_models w) !! T = None →
  make_model_from_schema T S seg meta crud w =
    match split_annotation_schema S with
    | Raise e => (Raise e, w)
    | Ok schemas =>
        let half := compiled_half seg schemas in
        match create_table_dict T half.1 half.2 meta crud with
        | Raise e => (Raise e, w)
        | Ok table_dict =>
            match table_dict !! tablename_key with
            | Some (ERaw (PStr name)) =>
                store_result T false (type_ name Base table_dict w)
            | found =>
                (Raise (TypeError
                          [Lit "type.__new__() argument 1 must be str, not ";
                           Lit (type_name found)]), w)
            end
        end
    end.
Proof.
  intros H. rewrite make_model_from_schema_miss by done.
  unfold builder, bind, lift, compiled_half.
  destruct (split_annotation_schema S) as [schemas |]; [| done].
  unfold create_sqlalchemy_model, bind, lift.
  destruct (source_given seg); simpl;
    (destruct (create_table_dict T _ _ meta crud) as [td |]; [| done]);
    by destruct (td !! tablename_key) as [[[| |] | |] |].
Qed.

Lemma make_flat_model_from_schema_cached T S seg meta w x :
  flat_container (sqlalchemy_models w) !! T = Some x →
  make_flat_model_from_schema T S seg meta w = (Ok x, w).
Proof.
  intros H.
  unfold make_flat_model_from_schema, bind, registry_contains, registry_get.
  rewrite contains_model_lookup, bool_decide_eq_true_2 by eauto. simpl.
  unfold get_model. by rewrite H.
Qed.

Lemma make_flat_model_from_schema_miss T S seg meta w :
  flat_container (sqlalchemy_models w) !! T = None →
  make_flat_model_from_schema T S seg meta w
  = store_result T true (builder (FlatRequest T S seg meta) w).
Proof.
  intros H.
  unfold make_flat_model_from_schema, registry_contains, registry_get.
  unfold bind at 1 2.
  rewrite contains_model_lookup, bool_decide_eq_false_2
    by (rewrite H; by intros [? ?]).
  simpl. unfold bind, lift.
  destruct (create_table_dict T _ seg meta false) as [td |]; [| done].
  destruct (type_ T FlatBase td w) as [[model | e] w1]; [| done].
  unfold registry_set, store_result, get_model; simpl.
  by rewrite lookup_insert_eq.
Qed.

Lemma make_flat_model_from_schema_fresh T S seg meta w :
  flat_container (sqlalchemy_models w) !! T = None →
  make_flat_model_from_schema T S seg meta w =
    match create_table_dict T (create_flattened_schema S) seg meta false with
    | Raise e => (Raise e, w)
    | Ok annotation_dict =>
        store_result T true (type_ T FlatBase annotation_dict w)
    end.
Proof.
  intros H. rewrite make_flat_model_from_schema_miss by done.
  unfold builder, bind, lift.
  by destruct (create_table_dict T _ seg meta false).
Qed.

(** What a request does, by whether its key is in the registry: served
    from the registry, nothing changes; otherwise the request raises,
    with the classes and the registry as they were, or it makes a class
    and stores it. *)
Lemma compile_step r w :
  match cached (request_key r) w with
  | Some x => compile r w = (Ok x, w)
  | None =>
      (∃ e w1, compile r w = (Raise e, w1)
               ∧ classes w1 = classes w
               ∧ sqlalchemy_models w1 = sqlalchemy_models w)
      ∨ (∃ c, compile r w =
                (Ok (length (classes w)),
                 store_class (request_key r).1 (request_key r).2 c w))
  end.
Proof.
  destruct r as [T S seg meta crud | T S seg meta]; unfold cached; simpl.
  - destruct (container (sqlalchemy_models w) !! T) as [x |] eqn:E.
    { by apply make_model_from_schema_cached. }
    rewrite make_model_from_schema_fresh by done.
    destruct (split_annotation_schema S) as [schemas |];
      [| left; by eexists _, w].
    simpl. destruct (create_table_dict T _ _ meta crud) as [td |];
      [| left; by eexists _, w].
    destruct (td !! tablename_key) as [[[| | name] | |] |];
      try (left; by eexists _, w).
    destruct (store_result_type_ T false name Base td w) as [H | H]; eauto.
  - destruct (flat_container (sqlalchemy_models w) !! T) as [x |] eqn:E.
    { by apply make_flat_model_from_schema_cached. }
    rewrite make_flat_model_from_schema_fresh by done.
    destruct (create_table_dict T _ seg meta false) as [td |];
      [| left; by eexists _, w].
    destruct (store_result_type_ T true T FlatBase td w) as [H | H]; eauto.
Qed.

Lemma cached_same_registry key w w1 :
  sqlalchemy_models w1 = sqlalchemy_models w → cached key w1 = cached key w.
Proof. unfold cached. by intros ->. Qed.

Lemma cached_store_class key T flat c w :
  cached key (store_class T flat c w) =
    if decide (key = (T, flat)) then Some (length (classes w)) else cached key w.
Proof.
  destruct key as [T' flat']. unfold cached, store_class, set_model. simpl.
  case_decide as Hk.
  - simplify_eq. destruct flat; simpl; apply lookup_insert_eq.
  - destruct flat, flat'; simpl; try done;
      apply lookup_insert_ne; congruence.
Qed.

(** Entries of the registry are never replaced or removed. *)
Lemma cached_compile key r w x :
  cached key w = Some x → cached key (compile r w).2 = Some x.
Proof.
  intros H. pose proof (compile_step r w) as Hs.
  destruct (cached (request_key r) w) as [y |] eqn:E.
  { by rewrite Hs. }
  destruct Hs as [(e & w1 & -> & _ & Hm) | [c ->]]; simpl.
  { by rewrite (cached_same_registry _ _ _ Hm). }
  rewrite cached_store_class. case_decide as Hk; [| done].
  destruct (request_key r). simpl in Hk. congruence.
Qed.

Lemma cached_run_requests key rs : ∀ w x,
  cached key w = Some x → cached key (run_requests rs w) = Some x.
Proof.
  induction rs as [| r rs IH]; intros w x H; [done |].
  simpl. apply IH. by apply cached_compile.
Qed.

(** A request that made a class was for a key not in the registry, and
    put it there. *)
Lemma built_compile r w :
  built w (compile r w).2 = true →
  cached (request_key r) w = None
  ∧ is_Some (cached (request_key r) (compile r w).2).
Proof.
  unfold built. intros H. apply bool_decide_eq_true in H.
  pose proof (compile_step r w) as Hs.
  destruct (cached (request_key r) w) as [y |] eqn:E.
  { rewrite Hs in H. simpl in H. lia. }
  split; [done |].
  destruct Hs as [(e & w1 & Hs & Hcl & _) | [c Hs]]; rewrite Hs in *;
    simpl in *; [rewrite Hcl in H; lia |].
  rewrite cached_store_class, decide_True; [eauto |].
  by destruct (request_key r).
Qed.

Lemma build_log_uncached rs : ∀ w key,
  key ∈ build_log rs w → cached key w = None.
Proof.
  induction rs as [| r rs IH]; intros w key H; simpl in H.
  { by apply elem_of_nil in H. }
  apply elem_of_app in H as [H | H].
  - destruct (built w (compile r w).2) eqn:Eb; [| by apply elem_of_nil in H].
    apply list_elem_of_singleton in H as ->. by apply built_compile.
  - apply IH in H. destruct (cached key w) as [x |] eqn:E; [| done].
    by rewrite (cached_compile _ r _ _ E) in H.
Qed.

Lemma build_log_NoDup rs : ∀ w, NoDup (build_log rs w).
Proof.
  induction rs as [| r rs IH]; intros w; simpl; [apply NoDup_nil_2 |].
  apply NoDup_app. split; [| split; [| apply IH]].
  - destruct (built w (compile r w).2); [apply NoDup_singleton | apply NoDup_nil_2].
  - intros key H Hin.
    destruct (built w (compile r w).2) eqn:Eb; [| by apply elem_of_nil in H].
    apply list_elem_of_singleton in H as ->.
    apply build_log_uncached in Hin.
    apply built_compile in Eb as [_ [x Hx]]. congruence.
Qed.

Lemma builder_runs_uncached rs : ∀ w key,
  key ∈ builder_runs rs w → cached key w = None.
Proof.
  induction rs as [| r rs IH]; intros w key H; simpl in H.
  { by apply elem_of_nil in H. }
  apply elem_of_app in H as [H | H].
  - destruct (cached (request_key r) w) eqn:E; [by apply elem_of_nil in H |].
    by apply list_elem_of_singleton in H as ->.
  - apply IH in H. destruct (cached key w) as [x |] eqn:E; [| done].
    by rewrite (cached_compile _ r _ _ E) in H.
Qed.

(** C2 (amended). The registry is idempotent per (table name, kind). A
    request whose key has an entry returns that very object and leaves
    the state as it is: the builder is not invoked and no class is made.
    A request whose key has no entry invokes the builder, once: a model
    the builder returns is a new class, which is stored under the key
    and returned; an exception of the builder goes on to the caller and
    nothing is stored, the registry and the classes being as before. A
    request that returned a model returns the same reference when
    repeated with the same arguments, at most one class having been
    made, and no later request for its key goes into the builder. Over
    any sequence of requests no (table name, kind) has a class made for
    it twice, nor once if it had an entry to begin with. *)
Theorem registry_idempotent r w :
  (∀ x, cached (request_key r) w = Some x → compile r w = (Ok x, w))
  ∧ (cached (request_key r) w = None →
     compile r w
     = store_result (request_key r).1 (request_key r).2 (builder r w)
     ∧ (∀ x w', compile r w = (Ok x, w') →
                (builder r w).1 = Ok x
                ∧ x = length (classes w)
                ∧ length (classes w') = S (length (classes w))
                ∧ cached (request_key r) w' = Some x)
     ∧ (∀ e w', compile r w = (Raise e, w') →
                builder r w = (Raise e, w')
                ∧ classes w' = classes w
                ∧ cached (request_key r) w' = None))
  ∧ (∀ x w', compile r w = (Ok x, w') →
             compile r w' = (Ok x, w')
             ∧ (length (classes w') ≤ S (length (classes w)))%nat
             ∧ ∀ rs, request_key r ∉ builder_runs rs w')
  ∧ (∀ rs, NoDup (build_log rs w)
           ∧ ∀ key, key ∈ build_log rs w → cached key w = None).
Proof.
  pose proof (compile_step r w) as Hs.
  split; [| split; [| split]].
  - intros x Hx. by rewrite Hx in Hs.
  - intros Hc. rewrite Hc in Hs.
    assert (compile r w
            = store_result (request_key r).1 (request_key r).2 (builder r w))
      as Heq.
    { destruct r as [T S seg meta crud | T S seg meta]; simpl.
      - by apply make_model_from_schema_miss.
      - by apply make_flat_model_from_schema_miss. }
    split; [done | split].
    + intros x w' H. split.
      { rewrite Heq in H. unfold store_result in H.
        destruct (builder r w) as [[model | e] w1]; by simplify_eq. }
      destruct Hs as [(e & w1 & Hs & _) | [c Hs]]; rewrite Hs in H;
        simplify_eq.
      split; [done | split].
      * unfold store_class. simpl. rewrite length_app. simpl. lia.
      * rewrite cached_store_class, decide_True; [done |].
        by destruct (request_key r).
    + intros e w' H. split.
      { rewrite Heq in H. unfold store_result in H.
        destruct (builder r w) as [[model | e'] w1]; by simplify_eq. }
      destruct Hs as [(e' & w1 & Hs & Hcl & Hm) | [c Hs]]; rewrite Hs in H;
        simplify_eq.
      split; [done |]. by rewrite (cached_same_registry _ _ _ Hm).
  - intros x w' H.
    assert (cached (request_key r) w' = Some x
            ∧ (length (classes w') ≤ S (length (classes w)))%nat) as [Hc Hl].
    { destruct (cached (request_key r) w) as [y |] eqn:E.
      - rewrite Hs in H. simplify_eq. split; [done | lia].
      - destruct Hs as [(e & w1 & Hs & _) | [c Hs]]; rewrite Hs in H;
          simplify_eq.
        split.
        + rewrite cached_store_class, decide_True; [done |].
          by destruct (request_key r).
        + unfold store_class. simpl. rewrite length_app. simpl. lia. }
    split; [| split; [done |]].
    + pose proof (compile_step r w') as Hs'. by rewrite Hc in Hs'.
    + intros rs Hin. apply builder_runs_uncached in Hin. congruence.
  - intros rs. split; [apply build_log_NoDup |].
    intros key. apply build_log_uncached.
Qed.

(** C8 (amended). The full-model cache is keyed by table name alone:
    once a table name has a model in [container], every later call of
    [make_model_from_schema], and of [make_sqlalchemy_model] with a
    schema type that [get_schema] resolves, returns that model and
    changes nothing, whatever the schema, segmentation source, table
    metadata and audit flag. *)
Theorem full_cache_keyed_by_table_name T x w rs :
  container (sqlalchemy_models w) !! T = Some x →
  let w' := run_requests rs w in
  (∀ S seg meta crud, make_model_from_schema T S seg meta crud w' = (Ok x, w'))
  ∧ (∀ schema_type S seg meta crud,
       get_schema schema_type = Ok S →
       make_sqlalchemy_model T schema_type seg meta crud w' = (Ok x, w')).
Proof.
  intros H w'.
  assert (container (sqlalchemy_models w') !! T = Some x) as H'.
  { by apply (cached_run_requests (T, false) rs w x). }
  split.
  - intros. by apply make_model_from_schema_cached.
  - intros st S seg meta crud Hg.
    unfold make_sqlalchemy_model, bind, lift. rewrite Hg.
    by apply make_model_from_schema_cached.
Qed.

(** ** The split into annotation and segmentation fields *)

Lemma split_fields_flattened name items : ∀ ann sg,
  (∀ k f, (k, f) ∈ items → field_type f ≠ mm_Nested) →
  split_fields name items ann sg =
    Ok ((ann ++ filter (λ item, is_segmentation_field item.2 = false) items)%list,
        (sg ++ filter (λ item, is_segmentation_field item.2 = true) items)%list).
Proof.
  induction items as [| [k f] items IH]; intros ann sg Hn.
  { simpl. by rewrite !app_nil_r. }
  simpl. rewrite decide_False by (apply (Hn k f), list_elem_of_here).
  fold (is_segmentation_field f).
  assert (∀ k' f', (k', f') ∈ items → field_type f' ≠ mm_Nested) as Hn'.
  { intros k' f' Hin. apply (Hn k' f'). by apply list_elem_of_further. }
  destruct (is_segmentation_field f) eqn:Es; rewrite IH by done.
  - rewrite filter_cons_False, filter_cons_True by (simpl; congruence).
    by rewrite <- app_assoc.
  - rewrite filter_cons_True, filter_cons_False by (simpl; congruence).
    by rewrite <- app_assoc.
Qed.

Lemma split_annotation_schema_flattened S :
  flattened (create_flattened_schema S) →
  split_annotation_schema S =
    Ok (convert_dict_to_schema (schema_name S +:+ "_annotation")
          (annotation_fields (create_flattened_schema S)),
        convert_dict_to_schema (schema_name S +:+ "_segmentation")
          (segmentation_fields (create_flattened_schema S))).
Proof.
  intros H. unfold split_annotation_schema.
  by rewrite split_fields_flattened.
Qed.

Lemma compiled_half_fields seg S :
  declared_fields
    (compiled_half seg
       (convert_dict_to_schema (schema_name S +:+ "_annotation")
          (annotation_fields (create_flattened_schema S)),
        convert_dict_to_schema (schema_name S +:+ "_segmentation")
          (segmentation_fields (create_flattened_schema S)))).1
  = compiled_fields seg (create_flattened_schema S).
Proof. unfold compiled_half, compiled_fields. by destruct (source_given seg). Qed.



(** C4 (amended). For a table name not yet in the registry and a
    schema whose flattened form has no nested field: if the fields
    handed to the builder (the segmentation fields when a segmentation
    source is given, the annotation fields otherwise) that are retained
    have supported types, with every [ReferenceTableField] marked
    Reference, and one retained field among them is marked Reference,
    then with table metadata that is not a dict or lacks
    [reference_table] the compile raises
    [InvalidTableMetaDataException] and leaves the registry and the
    classes as they were. *)
Theorem missing_reference_metadata T S seg meta crud w :
  container (sqlalchemy_models w) !! T = None →
  flattened (create_flattened_schema S) →
  (∀ k f, (k, f) ∈ compiled_fields seg (create_flattened_schema S) →
          drop_column f = false → compilable REFERENCE_value f) →
  (∃ k f, (k, f) ∈ compiled_fields seg (create_flattened_schema S)
          ∧ drop_column f = false ∧ is_reference REFERENCE_value f) →
  lacks_reference_table meta →
  ∃ msg, make_model_from_schema T S seg meta crud w
         = (Raise (InvalidTableMetaDataException msg), w).
Proof.
  intros Hw Hflat Hc Hr Hm.
  rewrite make_model_from_schema_fresh by done.
  rewrite split_annotation_schema_flattened by done. cbv zeta.
  rewrite create_table_dict_unfold, compiled_half_fields.
  destruct (add_fields_missing_reference REFERENCE_value object_str meta
              (compiled_fields seg (create_flattened_schema S))
              (initial_model T
                 (compiled_half seg
                    (convert_dict_to_schema (schema_name S +:+ "_annotation")
                       (annotation_fields (create_flattened_schema S)),
                     convert_dict_to_schema (schema_name S +:+ "_segmentation")
                       (segmentation_fields (create_flattened_schema S)))).2
                 crud) Hm Hc Hr) as [msg ->].
  by exists msg.
Qed.

(** ** What a full compile makes *)

Lemma header_tablename T seg :
  header T seg !! tablename_key = Some (ERaw (PStr (compiled_table_name T seg))).
Proof.
  unfold header, compiled_table_name, dict_update.
  by destruct (source_given seg); rewrite (right_id_L ∅ (∪)).
Qed.


Lemma header_compiled_half T seg schemas :
  header T (compiled_half seg schemas).2 = header T seg.
Proof.
  unfold compiled_half, header.
  destruct (source_given seg) eqn:E; simpl; by rewrite ?E.
Qed.

Lemma initial_model_compiled_half T seg schemas crud :
  initial_model T (compiled_half seg schemas).2 crud = initial_model T seg crud.
Proof. unfold initial_model. by rewrite header_compiled_half. Qed.





(** ** The dataset compiler *)

Lemma forallb_known (l : list (string * string)) :
  forallb (λ p, bool_decide (p.1 ∈ get_types)) l = true
  ↔ ∀ p, p ∈ l → p.1 ∈ get_types.
Proof.
  rewrite forallb_forall. split; intros H p Hp.
  - apply list_elem_of_In in Hp. specialize (H p Hp).
    by apply bool_decide_eq_true in H.
  - apply list_elem_of_In in Hp. by apply bool_decide_eq_true_2, H.
Qed.

Lemma validate_types_known (l : list (string * string)) :
  (∀ p, p ∈ l → p.1 ∈ get_types) → validate_types l = Ok tt.
Proof.
  intros H. apply forallb_known in H. unfold validate_types. by rewrite H.
Qed.

(** C6. When one or more schema names of the list are not registered,
    validation raises [UnknownAnnotationTypeException] with the message
    formatted from the list of all unknown schema names of the input,
    every one of them and no other, and [make_dataset_models] fails
    with it before it builds anything. *)
Theorem unknown_types_all_reported (l : list (string * string)) :
  (∃ p, p ∈ l ∧ p.1 ∉ get_types) →
  ∃ bad_types,
    validate_types l
    = Raise (UnknownAnnotationTypeException (invalid_types_msg bad_types))
    ∧ bad_types = (filter (λ p, p.1 ∉ get_types) l).*1
    ∧ (∀ n, n ∈ bad_types ↔ n ∈ l.*1 ∧ n ∉ get_types)
    ∧ ∀ av seg ic md crud w,
        make_dataset_models av l seg ic md crud w
        = (Raise (UnknownAnnotationTypeException (invalid_types_msg bad_types)),
           w).
Proof.
  intros (p & Hp & Hbad).
  assert (forallb (λ p, bool_decide (p.1 ∈ get_types)) l = false) as Hf.
  { destruct (forallb _ l) eqn:E; [| done].
    exfalso. apply Hbad. by apply (proj1 (forallb_known l) E). }
  assert (validate_types l
          = Raise (UnknownAnnotationTypeException
                     (invalid_types_msg (filter (λ p, p.1 ∉ get_types) l).*1)))
    as Hv.
  { unfold validate_types. by rewrite Hf. }
  eexists. split; [exact Hv |]. split; [done |]. split.
  - intros n. rewrite list_elem_of_fmap. split.
    + intros ([n' t] & -> & [Hn Hin]%list_elem_of_filter). simpl in *.
      split; [| done]. apply list_elem_of_fmap. by exists (n', t).
    + intros [([n' t] & -> & Hin)%list_elem_of_fmap Hn]. simpl in *.
      exists (n', t). split; [done |]. by apply list_elem_of_filter.
  - intros. unfold make_dataset_models, bind, lift. by rewrite Hv.
Qed.

(** C10. For every non-empty list of pairs with registered schema
    names, [make_dataset_models] called with [metadata_dict] left at
    [None] raises [AttributeError] from [metadata_dict.get] on the
    first pair, before any model is built: the registry and the classes
    are as before. *)
Theorem dataset_models_without_metadata av (l : list (string * string))
    seg ic crud w :
  l ≠ [] →
  (∀ p, p ∈ l → p.1 ∈ get_types) →
  make_dataset_models av l seg ic None crud w
  = (Raise (AttributeError [Lit "'NoneType' object has no attribute 'get'"]), w).
Proof.
  intros Hne Hvalid.
  unfold make_dataset_models, bind, lift, validate_types.
  rewrite (proj2 (forallb_known l) Hvalid). simpl.
  destruct l as [| [schema_name table_name] rest]; [done |]. done.
Qed.

(** ** More on the split *)

Lemma split_fields_nested name items : ∀ ann sg k f,
  (k, f) ∈ items → field_type f = mm_Nested →
  split_fields name items ann sg = Raise (not_flattened_error name).
Proof.
  induction items as [| [k0 f0] items IH]; intros ann sg k f Hin Ht.
  { by apply elem_of_nil in Hin. }
  simpl. case_decide as Hn; [done |].
  apply elem_of_cons in Hin as [Hin | Hin]; [by simplify_eq |].
  destruct (truthy _); by eapply IH.
Qed.

(** The split is a partition of the flattened schema: without a nested
    field it returns the schemas [Flat<name>_annotation] and
    [Flat<name>_segmentation], the one with the fields whose
    [segmentation_field] is truthy and the other with the rest, each in
    the order of the flattened schema and together all of its fields. *)
Theorem split_annotation_schema_partition S :
  flattened (create_flattened_schema S) →
  ∃ ann sg,
    split_annotation_schema S = Ok (ann, sg)
    ∧ schema_name ann = "Flat" +:+ schema_name S +:+ "_annotation"
    ∧ schema_name sg = "Flat" +:+ schema_name S +:+ "_segmentation"
    ∧ declared_fields ann = annotation_fields (create_flattened_schema S)
    ∧ declared_fields sg = segmentation_fields (create_flattened_schema S)
    ∧ (declared_fields sg ++ declared_fields ann)%list
      ≡ₚ declared_fields (create_flattened_schema S)
    ∧ (∀ k f, (k, f) ∈ declared_fields sg → is_segmentation_field f = true)
    ∧ (∀ k f, (k, f) ∈ declared_fields ann → is_segmentation_field f = false).
Proof.
  intros Hflat. eexists _, _.
  split; [by apply split_annotation_schema_flattened |]. simpl.
  do 4 (split; [done |]). split; [| split].
  - unfold segmentation_fields, annotation_fields.
    rewrite (list_filter_iff (λ item, is_segmentation_field item.2 = false)
               (λ item, ¬ is_segmentation_field item.2 = true)).
    + apply filter_app_complement.
    + intros [k f]. simpl. by destruct (is_segmentation_field f).
  - by intros k f [? _]%list_elem_of_filter.
  - by intros k f [? _]%list_elem_of_filter.
Qed.

(** A nested field left in the flattened schema makes the split raise,
    whatever its other metadata, and a compile of a table name that is
    not in the registry raises with it and stores nothing. *)
Theorem split_fails_on_nested S k f :
  (k, f) ∈ declared_fields (create_flattened_schema S) →
  field_type f = mm_Nested →
  split_annotation_schema S
  = Raise (not_flattened_error (schema_name (create_flattened_schema S)))
  ∧ ∀ T seg meta crud w,
      container (sqlalchemy_models w) !! T = None →
      make_model_from_schema T S seg meta crud w
      = (Raise (not_flattened_error (schema_name (create_flattened_schema S))),
         w).
Proof.
  intros Hin Ht.
  assert (split_annotation_schema S
          = Raise (not_flattened_error
                     (schema_name (create_flattened_schema S)))) as Hs.
  { unfold split_annotation_schema.
    by rewrite (split_fields_nested _ _ _ _ _ _ Hin Ht). }
  split; [done |]. intros T seg meta crud w Hw.
  rewrite make_model_from_schema_fresh by done. by rewrite Hs.
Qed.

(** An empty segmentation source counts as none: the builder and both
    compile entry points do with [""] what they do without a source (the
    base table, from the annotation half for a full compile). *)
Theorem empty_source_is_no_source T S meta crud w :
  create_table_dict T S (Some "") meta crud = create_table_dict T S None meta crud
  ∧ make_model_from_schema T S (Some "") meta crud w
    = make_model_from_schema T S None meta crud w
  ∧ make_flat_model_from_schema T S (Some "") meta w
    = make_flat_model_from_schema T S None meta w.
Proof. split; [reflexivity | split; reflexivity]. Qed.

(** ** More on the classes that are made *)

Lemma built_table_name T seg crud meta items m name :
  add_fields REFERENCE_value object_str meta (initial_model T seg crud) items
  = Ok m →
  m !! tablename_key = Some (ERaw (PStr name)) →
  name = compiled_table_name T seg.
Proof.
  intros H Hl.
  destruct (add_fields_provenance _ _ _ _ _ _ _ _ H Hl)
    as [H1 | [[? _] | (f & _ & _ & c & ?)]]; [| done | done].
  rewrite initial_model_lookup, header_tablename in H1 by (clear; set_solver).
  by simplify_eq.
Qed.

(** A model that gets built carries the right table name: a compile of a
    table name that is not in the registry, when it returns, has made
    one class, on [Base], named [<T>] or [<T>__<source>] as a source is
    given or not, whose dict has that name under [__tablename__]; the
    model returned is that class, stored under [<T>]. *)
Theorem built_model_table_name T S seg meta crud w x w' :
  container (sqlalchemy_models w) !! T = None →
  make_model_from_schema T S seg meta crud w = (Ok x, w') →
  ∃ d, w' = store_class T false
              (mkModelClass (compiled_table_name T seg) Base d) w
       ∧ x = length (classes w)
       ∧ classes w' !! x
         = Some (mkModelClass (compiled_table_name T seg) Base d)
       ∧ d !! tablename_key = Some (ERaw (PStr (compiled_table_name T seg))).
Proof.
  intros Hw H. rewrite make_model_from_schema_fresh in H by done.
  destruct (split_annotation_schema S) as [schemas |]; [| done].
  cbv zeta in H.
  destruct (create_table_dict T _ _ meta crud) as [d |] eqn:Ed; [| done].
  destruct (d !! tablename_key) as [[[| | name] | |] |] eqn:En; try done.
  rewrite create_table_dict_unfold, initial_model_compiled_half in Ed.
  pose proof (built_table_name _ _ _ _ _ _ _ Ed En) as ->.
  destruct (store_result_type_ T false (compiled_table_name T seg) Base d w)
    as [(e & w1 & Hs & _) | Hs]; rewrite Hs in H; simplify_eq.
  exists d. split; [done |]. split; [done |]. split; [| done].
  unfold store_class. simpl. by rewrite lookup_app_r, Nat.sub_diag.
Qed.

Lemma add_field_column_kept meta m k f m' k0 :
  add_field REFERENCE_value object_str meta m (k, f) = Ok m' →
  k0 ≠ reference_table_name →
  (∃ c, m !! k0 = Some (EColumn c)) → ∃ c, m' !! k0 = Some (EColumn c).
Proof.
  intros H Hk Hc. destruct (decide (k0 = k)) as [-> | Hne].
  - destruct (drop_column f) eqn:Ed.
    + rewrite add_field_dropped in H by done. by simplify_eq.
    + by eapply add_field_sets_column.
  - by rewrite (add_field_lookup_other _ _ _ _ _ _ _ _ H).
Qed.

Lemma add_fields_column_kept meta items : ∀ m m' k0,
  add_fields REFERENCE_value object_str meta m items = Ok m' →
  k0 ≠ reference_table_name →
  (∃ c, m !! k0 = Some (EColumn c)) → ∃ c, m' !! k0 = Some (EColumn c).
Proof.
  induction items as [| [k f] items IH]; intros m m' k0 H Hk Hc.
  { simpl in H. by simplify_eq. }
  rewrite add_fields_cons in H. bind_inv H m1 E1.
  eapply IH; [exact H | done |]. by eapply add_field_column_kept.
Qed.

Lemma add_fields_retained_column meta items m m' k f :
  add_fields REFERENCE_value object_str meta m items = Ok m' →
  (k, f) ∈ items → drop_column f = false → k ≠ reference_table_name →
  ∃ c, m' !! k = Some (EColumn c).
Proof.
  intros H Hin Hd Hk.
  apply list_elem_of_split in Hin as (pre & post & ->).
  rewrite add_fields_app in H. bind_inv H m1 E1.
  rewrite add_fields_cons in H. bind_inv H m2 E2.
  eapply add_fields_column_kept; [exact H | done |].
  by eapply add_field_sets_column.
Qed.

(** A retained field named [__tablename__] in the half that is compiled
    takes the place of the table name in the dict: when the fields
    compile, making the class fails with [TypeError] (its name is not a
    string) and nothing is stored. *)
Theorem field_named_tablename T S seg meta crud w f :
  container (sqlalchemy_models w) !! T = None →
  flattened (create_flattened_schema S) →
  (∀ k' f', (k', f') ∈ compiled_fields seg (create_flattened_schema S) →
            drop_column f' = false →
            compilable REFERENCE_value f'
            ∧ reference_resolves REFERENCE_value meta f') →
  (tablename_key, f) ∈ compiled_fields seg (create_flattened_schema S) →
  drop_column f = false →
  make_model_from_schema T S seg meta crud w = (Raise type_error, w).
Proof.
  intros Hw Hflat Hc Hin Hd.
  rewrite make_model_from_schema_fresh by done.
  rewrite split_annotation_schema_flattened by done. cbv zeta.
  rewrite create_table_dict_unfold, compiled_half_fields,
    initial_model_compiled_half.
  destruct (add_fields_resolves REFERENCE_value object_str meta
              (compiled_fields seg (create_flattened_schema S))
              (initial_model T seg crud) Hc) as [m Hm].
  rewrite Hm.
  destruct (add_fields_retained_column _ _ _ _ _ _ Hm Hin Hd) as [c ->];
    done.
Qed.

(** ** What SQLAlchemy refuses *)








(** ** More on the registry *)

Lemma compile_Ok_cached r w x w' :
  compile r w = (Ok x, w') → cached (request_key r) w' = Some x.
Proof.
  intros H. pose proof (compile_step r w) as Hs.
  destruct (cached (request_key r) w) as [y |] eqn:E.
  - rewrite Hs in H. by simplify_eq.
  - destruct Hs as [(e & w1 & Hs & _) | [c Hs]]; rewrite Hs in H;
      simplify_eq.
    rewrite cached_store_class, decide_True; [done |].
    by destruct (request_key r).
Qed.

(** A request touches nothing but its own entry: the entry of every
    other (table name, kind), the other kind of the same table name
    among them, is as before, and the classes made before are all still
    there, at most one being added after them. *)
Theorem compile_frame r w :
  (∀ key, key ≠ request_key r → cached key (compile r w).2 = cached key w)
  ∧ ∃ made, classes (compile r w).2 = (classes w ++ made)%list
            ∧ (length made ≤ 1)%nat.
Proof.
  pose proof (compile_step r w) as Hs.
  destruct (cached (request_key r) w) as [y |] eqn:E.
  { rewrite Hs. simpl. split; [done |]. exists [].
    rewrite app_nil_r. split; [done | simpl; lia]. }
  destruct Hs as [(e & w1 & -> & Hcl & Hm) | [c ->]]; simpl.
  - split; [intros; by apply cached_same_registry |].
    exists []. rewrite app_nil_r. split; [done | simpl; lia].
  - split.
    + intros key Hk. rewrite cached_store_class, decide_False; [done |].
      by destruct (request_key r).
    + exists [c]. split; [done | simpl; lia].
Qed.

Lemma extends_refl w : extends w w.
Proof. split; [done |]. by exists []; rewrite app_nil_r. Qed.

Lemma extends_trans w1 w2 w3 : extends w1 w2 → extends w2 w3 → extends w1 w3.
Proof.
  intros [H1 [k1 P1]] [H2 [k2 P2]]. split; [by eauto |].
  exists (k1 ++ k2)%list. by rewrite P2, P1, app_assoc.
Qed.

Lemma compile_extends r w : extends w (compile r w).2.
Proof.
  split.
  - intros key x. apply cached_compile.
  - pose proof (compile_step r w) as Hs.
    destruct (cached (request_key r) w) as [y |].
    { rewrite Hs. by exists []; rewrite app_nil_r. }
    destruct Hs as [(e & w1 & -> & Hcl & _) | [c ->]]; simpl.
    + rewrite Hcl. by exists []; rewrite app_nil_r.
    + by exists [c].
Qed.

(** The registry stays well formed: if every entry refers to a class
    that exists, so it is after a request, and the model a request
    returns is a class that exists. *)
Theorem registry_wf_compile r w :
  registry_wf w →
  registry_wf (compile r w).2
  ∧ ∀ x, (compile r w).1 = Ok x → is_Some (classes (compile r w).2 !! x).
Proof.
  intros Hwf.
  assert (registry_wf (compile r w).2) as Hwf'.
  { pose proof (compile_step r w) as Hs.
    destruct (cached (request_key r) w) as [y |] eqn:E.
    { by rewrite Hs. }
    destruct Hs as [(e & w1 & -> & Hcl & Hm) | [c ->]]; simpl.
    { intros key x. rewrite (cached_same_registry _ _ _ Hm), Hcl. apply Hwf. }
    intros key x. rewrite cached_store_class.
    unfold store_class. simpl. rewrite length_app. simpl.
    case_decide; intros Hx; [simplify_eq; lia |].
    apply Hwf in Hx. lia. }
  split; [done |]. intros x Hx. apply lookup_lt_is_Some.
  apply (Hwf' (request_key r)). apply (compile_Ok_cached r w).
  destruct (compile r w) as [res w'']. simpl in *. by subst.
Qed.

(** ** More on the dataset compiler *)

Lemma make_sqlalchemy_model_unfold T st seg meta crud w :
  make_sqlalchemy_model T st seg meta crud w
  = match get_schema st with
    | Ok schema => compile (FullRequest T schema seg meta crud) w
    | Raise e => (Raise e, w)
    end.
Proof.
  unfold make_sqlalchemy_model, bind, lift. by destruct (get_schema st).
Qed.

(** A schema type that [get_schema] does not resolve fails the call with
    [get_schema]'s error and leaves the state alone, also when the table
    name has a model in the registry. *)
Theorem unresolved_schema_type T st seg meta crud w e :
  get_schema st = Raise e →
  make_sqlalchemy_model T st seg meta crud w = (Raise e, w)
  ∧ make_flat_model REFERENCE_value object_str create_flattened_schema
      get_schema T st seg meta w = (Raise e, w).
Proof.
  intros H. unfold make_sqlalchemy_model, make_flat_model, bind, lift.
  by rewrite H.
Qed.

(** [validate_types] passes exactly when every schema name of the list
    is registered; the table names play no part. *)
Theorem validate_types_passes (l : list (string * string)) :
  validate_types l = Ok tt ↔ ∀ p, p ∈ l → p.1 ∈ get_types.
Proof.
  rewrite <- forallb_known. unfold validate_types.
  by destruct (forallb _ l).
Qed.

(** With no pair to compile and no contacts asked for, the result is the
    empty dict and nothing is touched, also when [metadata_dict] is left
    at [None]. *)
Theorem dataset_models_empty av seg md crud w :
  make_dataset_models av [] seg false md crud w = (Ok ∅, w).
Proof. reflexivity. Qed.

Lemma dataset_loop_extends l : ∀ seg md crud d0 w,
  extends w (dataset_loop REFERENCE_value object_str create_flattened_schema
               get_schema l seg md crud d0 w).2.
Proof.
  induction l as [| [st t] l IH]; intros seg md crud d0 w.
  { apply extends_refl. }
  simpl. unfold bind at 1. unfold lift.
  destruct (metadata_dict_get md t) as [tm |]; [| apply extends_refl].
  unfold bind at 1. rewrite make_sqlalchemy_model_unfold.
  destruct (get_schema st) as [S |]; [| apply extends_refl].
  pose proof (compile_extends (FullRequest t S seg tm crud) w) as He.
  destruct (compile (FullRequest t S seg tm crud) w) as [[x |] w1]; [| done].
  eapply extends_trans; [exact He | apply IH].
Qed.

(** Nothing is rolled back or replaced: whether [make_dataset_models]
    returns or raises, every entry the registry had is still there
    unchanged and the classes made before are all still there. *)
Theorem dataset_models_extends av l seg ic md crud w :
  extends w (make_dataset_models av l seg ic md crud w).2.
Proof.
  unfold make_dataset_models. unfold bind at 1. unfold lift.
  destruct (validate_types l); [| apply extends_refl].
  unfold bind at 1.
  pose proof (dataset_loop_extends l seg md crud ∅ w) as He.
  destruct (dataset_loop _ _ _ _ l seg md crud ∅ w) as [[d |] w1]; [| done].
  destruct ic; [| done].
  unfold bind.
  pose proof (compile_extends
                (FullRequest (av +:+ "__contact") Contact None (MetaValue PNone)
                   true) w1) as Hc.
  simpl in Hc.
  destruct (make_model_from_schema (av +:+ "__contact") Contact None
              (MetaValue PNone) true w1) as [[x |] w2];
    by eapply extends_trans.
Qed.

Lemma dataset_loop_result l : ∀ seg md crud d0 w d w',
  dataset_loop REFERENCE_value object_str create_flattened_schema get_schema
    l seg md crud d0 w = (Ok d, w') →
  (∀ t, t ∈ l.*2 →
        is_Some (d !! t) ∧ d !! t = container (sqlalchemy_models w') !! t)
  ∧ (∀ k, k ∉ l.*2 → d !! k = d0 !! k).
Proof.
  induction l as [| [st t] l IH]; intros seg md crud d0 w d w' H.
  { simpl in H. unfold ret in H. simplify_eq. split; [| done].
    intros t Ht. by apply elem_of_nil in Ht. }
  simpl in H. unfold bind at 1 in H. unfold lift in H.
  destruct (metadata_dict_get md t) as [tm |]; [| done].
  unfold bind at 1 in H. rewrite make_sqlalchemy_model_unfold in H.
  destruct (get_schema st) as [S |]; [| done].
  destruct (compile (FullRequest t S seg tm crud) w) as [[x |] w1] eqn:Ec;
    [| done].
  apply compile_Ok_cached in Ec. simpl in Ec.
  pose proof (dataset_loop_extends l seg md crud (<[t:=x]> d0) w1) as [Hk _].
  rewrite H in Hk. simpl in Hk.
  specialize (Hk (t, false) x Ec). unfold cached in Hk. simpl in Hk.
  destruct (IH _ _ _ _ _ _ _ H) as [Hin Hout].
  split.
  - intros t' Ht'. rewrite fmap_cons in Ht'. simpl in Ht'.
    destruct (decide (t' ∈ l.*2)) as [Hl | Hl]; [by apply Hin |].
    apply elem_of_cons in Ht' as [-> | ?]; [| done].
    rewrite (Hout t Hl), lookup_insert_eq, Hk. eauto.
  - intros k Hk'. rewrite fmap_cons in Hk'. simpl in Hk'.
    apply not_elem_of_cons in Hk' as [Hne Hl].
    rewrite (Hout k Hl). by rewrite lookup_insert_ne.
Qed.

(** What [make_dataset_models] returns is read off the registry: its
    keys are the table names of the list, and [contact] when contacts
    are asked for; every table name is mapped to the model the registry
    then has under it (for the table name [contact] only without
    contacts), and [contact] to the model under [<volume>__contact]. *)
Theorem dataset_models_result av l seg ic md crud w d w' :
  make_dataset_models av l seg ic md crud w = (Ok d, w') →
  (∀ k, is_Some (d !! k) ↔ k ∈ l.*2 ∨ (ic = true ∧ k = "contact"))
  ∧ (∀ t, t ∈ l.*2 → (ic = true → t ≠ "contact") →
          d !! t = container (sqlalchemy_models w') !! t)
  ∧ (ic = true →
     d !! "contact"
     = container (sqlalchemy_models w') !! (av +:+ "__contact")).
Proof.
  unfold make_dataset_models. unfold bind at 1. unfold lift.
  destruct (validate_types l); [| done].
  unfold bind at 1.
  destruct (dataset_loop _ _ _ _ l seg md crud ∅ w) as [[d1 |] w1] eqn:El;
    [| done].
  destruct (dataset_loop_result _ _ _ _ _ _ _ _ El) as [Hin Hout].
  destruct ic.
  - unfold bind, ret.
    destruct (make_model_from_schema (av +:+ "__contact") Contact None
                (MetaValue PNone) true w1) as [[x |] w2] eqn:Ec; [| done].
    intros H. simplify_eq.
    pose proof (compile_Ok_cached
                  (FullRequest (av +:+ "__contact") Contact None
                     (MetaValue PNone) true) w1 x w' Ec) as Hx.
    pose proof (compile_extends
                  (FullRequest (av +:+ "__contact") Contact None
                     (MetaValue PNone) true) w1) as [Hk _].
    simpl in Hk. rewrite Ec in Hk. simpl in Hk.
    unfold cached in Hx. simpl in Hx.
    split; [| split].
    + intros k. destruct (decide (k = "contact")) as [-> | Hne].
      * rewrite lookup_insert_eq. split; [eauto | by eexists].
      * rewrite lookup_insert_ne by done. split.
        -- intros Hs. left. destruct (decide (k ∈ l.*2)) as [? | Hl]; [done |].
           rewrite (Hout k Hl), lookup_empty in Hs. by destruct Hs.
        -- intros [Hl | [_ ?]]; [by apply Hin | done].
    + intros t Ht Hne. rewrite lookup_insert_ne by (symmetry; by apply Hne).
      destruct (Hin t Ht) as [[y Hy] Heq]. rewrite Hy.
      rewrite Hy in Heq. symmetry in Heq.
      symmetry. apply (Hk (t, false) y Heq).
    + intros _. by rewrite lookup_insert_eq.
  - unfold ret. intros H. simplify_eq. split; [| split].
    + intros k. split.
      * intros Hs. left. destruct (decide (k ∈ l.*2)) as [? | Hl]; [done |].
        rewrite (Hout k Hl), lookup_empty in Hs. by destruct Hs.
      * intros [Hl | [? _]]; [by apply Hin | done].
    + intros t Ht _. by apply Hin.
    + done.
Qed.

Lemma dataset_loop_again l : ∀ seg md crud d0 w d w' w'',
  dataset_loop REFERENCE_value object_str create_flattened_schema get_schema
    l seg md crud d0 w = (Ok d, w') →
  extends w' w'' →
  dataset_loop REFERENCE_value object_str create_flattened_schema get_schema
    l seg md crud d0 w'' = (Ok d, w'').
Proof.
  induction l as [| [st t] l IH]; intros seg md crud d0 w d w' w'' H He.
  { simpl in *. unfold ret in *. by simplify_eq. }
  simpl in *. unfold bind at 1 in H. unfold bind at 1. unfold lift in *.
  destruct (metadata_dict_get md t) as [tm |]; [| done].
  unfold bind at 1 in H. unfold bind at 1.
  rewrite make_sqlalchemy_model_unfold in *.
  destruct (get_schema st) as [S |]; [| done].
  destruct (compile (FullRequest t S seg tm crud) w) as [[x |] w1] eqn:Ec;
    [| done].
  apply compile_Ok_cached in Ec.
  pose proof (dataset_loop_extends l seg md crud (<[t:=x]> d0) w1) as [Hk _].
  rewrite H in Hk. simpl in Hk.
  pose proof (proj1 He _ _ (Hk _ _ Ec)) as Hc.
  pose proof (compile_step (FullRequest t S seg tm crud) w'') as Hs.
  rewrite Hc in Hs. rewrite Hs.
  by eapply IH.
Qed.

Lemma make_dataset_models_unfold av l seg ic md crud w :
  make_dataset_models av l seg ic md crud w
  = match validate_types l with
    | Raise e => (Raise e, w)
    | Ok _ =>
        match dataset_loop REFERENCE_value object_str create_flattened_schema
                get_schema l seg md crud ∅ w with
        | (Raise e, w1) => (Raise e, w1)
        | (Ok d, w1) =>
            if ic then
              match make_model_from_schema (av +:+ "__contact") Contact None
                      (MetaValue PNone) true w1 with
              | (Ok x, w2) => (Ok (<["contact" := x]> d), w2)
              | (Raise e, w2) => (Raise e, w2)
              end
            else (Ok d, w1)
        end
    end.
Proof.
  unfold make_dataset_models. unfold bind at 1. unfold lift.
  destruct (validate_types l); [| done].
  unfold bind at 1.
  destruct (dataset_loop _ _ _ _ l seg md crud ∅ w) as [[d |] w1]; [| done].
  destruct ic; [| done]. unfold bind, ret.
  by destruct (make_model_from_schema _ Contact None _ true w1) as [[x |] w2].
Qed.

(** [make_dataset_models] is idempotent: after a call that returned,
    the same call returns the same dict of the same models and changes
    nothing. *)
Theorem dataset_models_idempotent av l seg ic md crud w d w' :
  make_dataset_models av l seg ic md crud w = (Ok d, w') →
  make_dataset_models av l seg ic md crud w' = (Ok d, w').
Proof.
  rewrite !make_dataset_models_unfold.
  destruct (validate_types l); [| done].
  destruct (dataset_loop _ _ _ _ l seg md crud ∅ w) as [[d1 |] w1] eqn:El;
    [| done].
  destruct ic.
  - destruct (make_model_from_schema (av +:+ "__contact") Contact None
                (MetaValue PNone) true w1) as [[x |] w2] eqn:Ec; [| done].
    intros H. simplify_eq.
    pose proof (compile_extends
                  (FullRequest (av +:+ "__contact") Contact None
                     (MetaValue PNone) true) w1) as He.
    simpl in He. rewrite Ec in He. simpl in He.
    rewrite (dataset_loop_again _ _ _ _ _ _ _ _ _ El He).
    pose proof (compile_Ok_cached
                  (FullRequest (av +:+ "__contact") Contact None
                     (MetaValue PNone) true) w1 x w' Ec) as Hx.
    by rewrite (make_model_from_schema_cached _ _ _ _ _ _ _ Hx).
  - intros H. simplify_eq.
    by rewrite (dataset_loop_again _ _ _ _ _ _ _ _ _ El (extends_refl _)).
Qed.

Lemma dataset_loop_app l1 l2 : ∀ seg md crud d0 w,
  dataset_loop REFERENCE_value object_str create_flattened_schema get_schema
    (l1 ++ l2) seg md crud d0 w
  = match dataset_loop REFERENCE_value object_str create_flattened_schema
            get_schema l1 seg md crud d0 w with
    | (Ok d1, w1) =>
        dataset_loop REFERENCE_value object_str create_flattened_schema
          get_schema l2 seg md crud d1 w1
    | (Raise e, w1) => (Raise e, w1)
    end.
Proof.
  induction l1 as [| [st t] l1 IH]; intros seg md crud d0 w; [done |].
  simpl. unfold bind at 1 3. unfold lift.
  destruct (metadata_dict_get md t) as [tm |]; [| done].
  unfold bind at 1 2.
  destruct (make_sqlalchemy_model t st seg tm crud w) as [[x |] w1]; [| done].
  apply IH.
Qed.

(** Progress is kept: when the pairs [l1] compile, a call for [l1]
    followed by further pairs, all with registered schema names, ends,
    whether it returns or raises on a later pair, in a state that still
    has every model and class the call for [l1] alone would have left. *)
Theorem dataset_models_progress_kept av l1 l2 seg ic md crud w d1 w1 :
  (∀ p, p ∈ (l1 ++ l2)%list → p.1 ∈ get_types) →
  make_dataset_models av l1 seg false md crud w = (Ok d1, w1) →
  extends w1 (make_dataset_models av (l1 ++ l2) seg ic md crud w).2.
Proof.
  intros Hv H.
  rewrite make_dataset_models_unfold in H.
  destruct (validate_types l1); [| done].
  destruct (dataset_loop _ _ _ _ l1 seg md crud ∅ w) as [[d |] w0] eqn:El;
    [| done].
  simplify_eq.
  rewrite make_dataset_models_unfold.
  rewrite (validate_types_known _ Hv).
  rewrite dataset_loop_app, El.
  pose proof (dataset_loop_extends l2 seg md crud d1 w1) as He.
  destruct (dataset_loop _ _ _ _ l2 seg md crud d1 w1) as [[d2 |] w2]; [| done].
  destruct ic; [| done].
  pose proof (compile_extends
                (FullRequest (av +:+ "__contact") Contact None (MetaValue PNone)
                   true) w2) as Hc.
  simpl in Hc.
  destruct (make_model_from_schema (av +:+ "__contact") Contact None
              (MetaValue PNone) true w2) as [[x |] w3];
    by eapply extends_trans.
Qed.

(** ** The flat models *)

(** A flat compile of a table name that has no flat model yet: when it
    returns, it has made one class on [FlatBase], named by the bare
    table name also when a segmentation source is given, from the whole
    flattened schema: every retained field of either half has an entry,
    and there are no audit entries but those of fields so named. *)
Theorem flat_model_built T S seg meta w x w' :
  flat_container (sqlalchemy_models w) !! T = None →
  make_flat_model_from_schema T S seg meta w = (Ok x, w') →
  ∃ d, w' = store_class T true (mkModelClass T FlatBase d) w
       ∧ x = length (classes w)
       ∧ create_table_dict T (create_flattened_schema S) seg meta false = Ok d
       ∧ (∀ k f, (k, f) ∈ declared_fields (create_flattened_schema S) →
                 drop_column f = false → k ≠ reference_table_name →
                 is_Some (d !! k))
       ∧ (∀ k, k ∈ crud_names → is_Some (d !! k) →
               ∃ f, (k, f) ∈ declared_fields (create_flattened_schema S)
                    ∧ drop_column f = false).
Proof.
  intros Hw H. rewrite make_flat_model_from_schema_fresh in H by done.
  destruct (create_table_dict T _ seg meta false) as [d |] eqn:Ed; [| done].
  destruct (store_result_type_ T true T FlatBase d w)
    as [(e & w1 & Ht & _) | Ht]; rewrite Ht in H; simplify_eq.
  exists d. do 3 (split; [done |]). split.
  - intros k f Hin Hd Hk.
    apply (create_table_dict_keys _ _ _ _ _ _ _ _ _ Ed Hk). eauto.
  - intros k Hin Hs.
    assert (k ≠ reference_table_name) as Hk.
    { clear -Hin. intros ->. revert Hin.
      unfold crud_names, reference_table_name. set_solver. }
    apply (create_table_dict_keys _ _ _ _ _ _ _ _ _ Ed Hk) in Hs
      as [Hh | [[? _] | ?]]; [| done | done].
    exfalso. clear -Hin Hh. revert Hin Hh.
    unfold crud_names, header_keys, tablename_key, id_key, mapper_args_key.
    set_solver.
Qed.

End CompilerFacts.

(** * The model store *)

(** What [set_model] stores, [get_model] returns and [contains_model]
    finds; every other table name, and the same table name in the other
    container, is as before. *)
Theorem set_model_get_model s T model flat :
  get_model (set_model s T model flat) T flat = Ok model
  ∧ contains_model (set_model s T model flat) T flat = true
  ∧ ∀ T' flat',
      (T', flat') ≠ (T, flat) →
      get_model (set_model s T model flat) T' flat' = get_model s T' flat'
      ∧ contains_model (set_model s T model flat) T' flat'
        = contains_model s T' flat'.
Proof.
  split; [| split].
  - unfold get_model, set_model. destruct flat; simpl; by rewrite lookup_insert_eq.
  - unfold contains_model, set_model.
    destruct flat; simpl; apply bool_decide_eq_true_2; rewrite dom_insert_L;
      set_solver.
  - intros T' flat' Hne. unfold get_model, contains_model, set_model.
    destruct flat, flat'; simpl; try done;
      (assert (T ≠ T') by congruence);
      (split; [by rewrite lookup_insert_ne |]);
      apply bool_decide_ext; rewrite dom_insert_L; set_solver.
Qed.

(** [get_model] returns a model exactly when [contains_model] says so,
    and raises [KeyError] with the table name otherwise; a new store
    contains nothing. *)
Theorem contains_model_get_model s T flat :
  (contains_model s T flat = true ↔ ∃ model, get_model s T flat = Ok model)
  ∧ (contains_model s T flat = false ↔ get_model s T flat = Raise (KeyError T))
  ∧ contains_model ModelStore_init T flat = false.
Proof.
  assert (contains_model s T flat
          = bool_decide
              (is_Some ((if flat then flat_container s else container s) !! T)))
    as ->.
  { unfold contains_model. destruct flat; apply bool_decide_ext, elem_of_dom. }
  unfold get_model.
  destruct ((if flat then flat_container s else container s) !! T) as [x |].
  - rewrite bool_decide_eq_true_2 by eauto. split; [| split].
    + split; [eauto | done].
    + split; done.
    + by destruct flat.
  - rewrite bool_decide_eq_false_2 by (by intros [? ?]). split; [| split].
    + split; [done | by intros [? ?]].
    + split; done.
    + by destruct flat.
Qed.

(** * Database names *)

Lemma str_split_cons sep s : ∃ head tail, str_split sep s = head :: tail.
Proof.
  destruct s as [| a rest]; simpl; [eauto |].
  destruct (Ascii.eqb a sep); [eauto |].
  destruct (str_split sep rest); eauto.
Qed.

Lemma str_join_cons sep head x tail :
  str_join sep (head :: x :: tail) = head +:+ sep +:+ str_join sep (x :: tail).
Proof. reflexivity. Qed.

Lemma str_join_String sep a head tail :
  str_join sep (String a head :: tail) = String a (str_join sep (head :: tail)).
Proof. by destruct tail. Qed.

(** Joining what [split] gave back, with the same separator, is the
    string again. *)
Lemma str_join_split sep s :
  str_join (String sep EmptyString) (str_split sep s) = s.
Proof.
  induction s as [| a rest IH]; [done |]. simpl.
  destruct (str_split_cons sep rest) as (head & tail & Hs).
  rewrite Hs in *. destruct (Ascii.eqb_spec a sep) as [-> | Hne].
  - rewrite str_join_cons, IH. done.
  - by rewrite str_join_String, IH.
Qed.

Lemma str_split_app sep base last :
  str_split sep (base +:+ String sep last)
  = (str_split sep base ++ str_split sep last)%list.
Proof.
  induction base as [| a rest IH]; simpl.
  { by rewrite Ascii.eqb_refl. }
  rewrite IH. destruct (Ascii.eqb a sep); [done |].
  by destruct (str_split_cons sep rest) as (head & tail & ->).
Qed.

Lemma str_split_no_sep sep s :
  contains_char sep s = false → str_split sep s = [s].
Proof.
  induction s as [| a rest IH]; simpl; [done |].
  intros [Ha Hr]%orb_false_iff. by rewrite Ha, IH.
Qed.

Lemma sql_uri_base_app base last :
  contains_char "/"%char last = false →
  str_join "/" (removelast (str_split "/"%char (base +:+ String "/"%char last))) = base.
Proof.
  intros H. rewrite str_split_app, (str_split_no_sep _ _ H).
  rewrite removelast_last. apply str_join_split.
Qed.

(** [format_version_db_uri] replaces the last path segment: of a uri
    [<base>/<last>], [<last>] holding no slash, it makes
    [<base>/<volume>_v<version>]; of a uri with no slash at all it makes
    [/<volume>_v<version>]. *)
Theorem format_version_db_uri_last_segment base last aligned_volume version :
  contains_char "/"%char last = false →
  format_version_db_uri (base +:+ String "/"%char last) aligned_volume version
  = base +:+ "/" +:+ format_database_name aligned_volume version
  ∧ format_version_db_uri last aligned_volume version
    = "/" +:+ format_database_name aligned_volume version.
Proof.
  intros H. unfold format_version_db_uri. split.
  - by rewrite sql_uri_base_app.
  - by rewrite (str_split_no_sep _ _ H).
Qed.

(** A versioned uri can be versioned again: when the database name holds
    no slash, the result is the one the original uri gives. *)
Theorem format_version_db_uri_again sql_uri volume version volume' version' :
  contains_char "/"%char (format_database_name volume version) = false →
  format_version_db_uri (format_version_db_uri sql_uri volume version)
    volume' version'
  = format_version_db_uri sql_uri volume' version'.
Proof.
  intros H. unfold format_version_db_uri at 2.
  change (?b +:+ "/" +:+ ?n) with (b +:+ String "/"%char n).
  unfold format_version_db_uri at 1. by rewrite sql_uri_base_app.
Qed.

Lemma append_inj_l (a x y : string) : a +:+ x = a +:+ y → x = y.
Proof.
  induction a as [| c a IH]; simpl; [done |].
  intros H. apply IH. by injection H.
Qed.

(** Two versions of a volume never share a database name. *)
Theorem format_database_name_version_inj aligned_volume (v1 v2 : Z) :
  format_database_name aligned_volume (Some v1)
  = format_database_name aligned_volume (Some v2) →
  v1 = v2.
Proof.
  unfold format_database_name. intros H.
  apply append_inj_l in H. apply (append_inj_l "_v") in H.
  simpl in H. by apply pretty_Z_inj in H.
Qed.

(** * The properties on concrete schemas *)

Lemma is_Ok_true {A} (r : Result A) : is_Ok r = true → ∃ a, r = Ok a.
Proof. destruct r; [eauto | done]. Qed.

(** [in_list]: [x ∈ [x1; ...; xn]] for an [x] that is in the list. *)
Ltac in_list :=
  repeat first [apply list_elem_of_here | apply list_elem_of_further].

(** [each_item H]: the cases of [H : x ∈ [x1; ...; xn]]. *)
Ltac each_item H :=
  repeat (apply elem_of_cons in H as [H | H]; [simplify_eq |]);
  [.. | by apply elem_of_nil in H].



(** C2 (as stated, refuted). The builder can run more than once for a
    (table name, kind): a request whose builder raises stores nothing,
    and the same request served again finds no entry and goes into the
    builder again. *)
Lemma builder_runs_again_after_failure :
  let r := FullRequest "T" reference_schema None (MetaValue PNone) true in
  (∃ msg, compile REFERENCE_sample object_str_sample flatten_sample r World_init
          = (Raise (InvalidTableMetaDataException msg), World_init))
  ∧ builder_runs REFERENCE_sample object_str_sample flatten_sample [r; r]
      World_init
    = [("T", false); ("T", false)]
  ∧ ¬ NoDup (builder_runs REFERENCE_sample object_str_sample flatten_sample
               [r; r] World_init).
Proof.
  intros r.
  assert (builder_runs REFERENCE_sample object_str_sample flatten_sample [r; r]
            World_init = [("T", false); ("T", false)]) as Hruns.
  { by vm_compute. }
  split; [eexists; by vm_compute |]. split; [exact Hruns |].
  rewrite Hruns. intros [Hin _]%NoDup_cons. apply Hin. in_list.
Qed.

(** C2, on the scenario: the same request twice gives the same reference
    and the second leaves the state alone. *)
Lemma registry_idempotent_witness :
  compile REFERENCE_sample object_str_sample flatten_sample seg1_request
    World_init = (Ok 0, world_after_seg1)
  ∧ compile REFERENCE_sample object_str_sample flatten_sample seg1_request
      world_after_seg1 = (Ok 0, world_after_seg1)
  ∧ build_log REFERENCE_sample object_str_sample flatten_sample
      [seg1_request; seg1_request] World_init = [("T", false)].
Proof.
  destruct (registry_idempotent REFERENCE_sample object_str_sample
              flatten_sample seg1_request World_init) as (_ & _ & Htwice & _).
  assert (compile REFERENCE_sample object_str_sample flatten_sample
            seg1_request World_init = (Ok 0, world_after_seg1)) as Hfirst.
  { by vm_compute. }
  split; [exact Hfirst |]. split.
  - by destruct (Htwice 0 world_after_seg1 Hfirst) as [H _].
  - by vm_compute.
Defined.

(** C3 (as stated, refuted). A segmentation schema with a field named
    [id]: the emitted [id] is that field's integer column, neither a
    primary key nor a foreign key to [T.id]. *)
Lemma segmentation_id_overwritten :
  ∃ m, table_dict_sample "T" schema_with_id (Some "seg1") (MetaValue PNone) false
       = Ok m
       ∧ m !! id_key =
           Some (EColumn (mkColumn Integer None false (PBool false) None))
       ∧ m !! id_key ≠
           Some (EColumn (mkColumn BigInteger (Some "T.id") true PNone None)).
Proof.
  eexists. split; [reflexivity |]. split; [by vm_compute |].
  vm_compute. discriminate.
Qed.

Lemma segmentation_table_header_witness :
  ∃ m, table_dict_sample "T" (mkSchema "Seg" (segmentation_fields scenario))
         (Some "seg1") (MetaDict base_metadata) true = Ok m
       ∧ m !! tablename_key = Some (ERaw (PStr "T__seg1"))
       ∧ m !! id_key =
           Some (EColumn (mkColumn BigInteger (Some "T.id") true PNone None))
       ∧ m !! mapper_args_key = Some (EMapperArgs (mkMapperArgs "T__seg1" true)).
Proof.
  eexists. split; [reflexivity |].
  apply (segmentation_table_header REFERENCE_sample object_str_sample "T"
           (mkSchema "Seg" (segmentation_fields scenario)) "seg1"
           (MetaDict base_metadata) true).
  - done.
  - intros k f H _. vm_compute in H. each_item H. compute_done.
  - reflexivity.
Defined.

(** C4 (as stated, refuted). A schema whose only Reference field has
    [drop_column] set compiles without table metadata, and its model is
    stored under the table name. *)
Lemma dropped_reference_compiles :
  let run := compile_sample "T" dropped_reference None (MetaValue PNone) true
               World_init in
  is_reference REFERENCE_sample
    (field ReferenceTableField
       [("metadata", PStr "reference"); ("drop_column", PBool true)])
  ∧ run.1 = Ok 0
  ∧ container (sqlalchemy_models run.2) !! "T" = Some 0.
Proof. by vm_compute. Qed.

Lemma missing_reference_metadata_witness :
  ∃ msg, compile_sample "T" reference_schema None (MetaValue PNone) true World_init
         = (Raise (InvalidTableMetaDataException msg), World_init).
Proof.
  apply (missing_reference_metadata REFERENCE_sample object_str_sample
           flatten_sample "T" reference_schema None (MetaValue PNone) true
           World_init).
  - reflexivity.
  - intros k f H. each_item H. done.
  - intros k f H _. vm_compute in H. each_item H.
    split; [by eexists | done].
  - exists "target_id",
      (field ReferenceTableField [("metadata", PStr "reference")]).
    split; [| done]. vm_compute. apply list_elem_of_here.
  - exact I.
Defined.

(** C5 (as stated, refuted). With audit columns the dict has no entry
    [superseded_id]; the third audit column is [superceded_id]. And a
    schema with a string field named [created] gets that field's column
    under [created], not a timestamp. *)
Lemma superseded_id_absent :
  (∃ m, table_dict_sample "T" annotation_only None (MetaValue PNone) true = Ok m
        ∧ m !! "superseded_id" = None
        ∧ m !! "superceded_id" =
            Some (EColumn (mkColumn BigInteger None false PNone None)))
  ∧ (∃ m, table_dict_sample "T" schema_with_created None (MetaValue PNone) true
          = Ok m
          ∧ m !! "created" =
              Some (EColumn (mkColumn SqlString None false (PBool false) None))).
Proof.
  split; eexists; (split; [reflexivity |]); by vm_compute.
Qed.

Lemma crud_columns_added_witness :
  ∃ m, table_dict_sample "T" annotation_only None (MetaValue PNone) true = Ok m
       ∧ m !! "created" =
           Some (EColumn (mkColumn DateTime None false (PBool true) (Some false)))
       ∧ m !! "deleted" =
           Some (EColumn (mkColumn DateTime None false (PBool true) None))
       ∧ m !! "superceded_id" =
           Some (EColumn (mkColumn BigInteger None false PNone None))
       ∧ ∃ m0, table_dict_sample "T" annotation_only None (MetaValue PNone) false
               = Ok m0
               ∧ size m = size m0 + 3.
Proof.
  destruct (is_Ok_true
              (table_dict_sample "T" annotation_only None (MetaValue PNone) true))
    as [m E]; [by vm_compute |].
  exists m. split; [exact E |].
  destruct (crud_columns_added REFERENCE_sample object_str_sample "T"
              annotation_only None (MetaValue PNone) m)
    as (Hc & Hd & Hs & m0 & Hm0 & _ & _ & Hsize).
  - intros k f H _. each_item H; compute_done.
  - exact E.
  - do 3 (split; [assumption |]). by exists m0.
Defined.

(** C7 (as stated, refuted). A dropped field named [id] still finds a
    column under its name, the builder's primary key; and a retained
    field named [reference_table_name] ends with no column, the entry
    being overwritten and popped by the reference after it. *)
Lemma dropped_id_still_a_column :
  ∃ m, table_dict_sample "T" schema_with_builder_names None
         (MetaDict base_metadata) false = Ok m
       ∧ m !! "id" = Some (EColumn (mkColumn BigInteger None true PNone None))
       ∧ m !! "reference_table_name" = None.
Proof. eexists. split; [reflexivity |]. by vm_compute. Qed.

Lemma dropped_fields_omitted_witness :
  ∃ m, table_dict_sample "T" dropped_reference None (MetaValue PNone) true = Ok m
       ∧ (∀ c, m !! "target_id" ≠ Some (EColumn c))
       ∧ ∀ k c, m !! k = Some (EColumn c) → k ∈ builder_columns true.
Proof.
  eexists. split; [reflexivity |].
  destruct (dropped_fields_omitted REFERENCE_sample object_str_sample "T"
              dropped_reference None (MetaValue PNone) true
              _ ltac:(compute_done) eq_refl) as (Hdrop & _ & Hcols).
  split.
  - apply (Hdrop "target_id"
             (field ReferenceTableField
                [("metadata", PStr "reference"); ("drop_column", PBool true)]));
      [apply list_elem_of_here | done | compute_done].
  - intros k c Hk. destruct (Hcols k c Hk) as [? | (f & Hf & Hd)]; [done |].
    each_item Hf; done.
Defined.

(** C9 (as stated, refuted). A retained integer field marked Reference
    followed by a [ReferenceTableField] that is not marked: the build
    succeeds, so the second field raises no [KeyError], and the emitted
    dict has no [reference_table_name] left, the second field having
    popped what the first one set. *)
Lemma reference_entry_popped_later :
  ∃ m, table_dict_sample "T" marked_then_unmarked None (MetaDict base_metadata)
         false = Ok m
       ∧ m !! reference_table_name = None
       ∧ m !! "target_id" =
           Some (EColumn (mkColumn BigInteger (Some "base.id") false
                                   (PBool false) None)).
Proof. eexists. split; [reflexivity |]. by vm_compute. Qed.

Lemma reference_table_name_entry_witness :
  (∃ m, table_dict_sample "T" marked_alone None (MetaDict base_metadata) false
        = Ok m
        ∧ m !! reference_table_name = Some (ERaw (PStr "base")))
  ∧ table_dict_sample "T" unmarked_alone None (MetaDict base_metadata) false
    = Raise (KeyError reference_table_name).
Proof.
  split.
  - eexists. split; [reflexivity |].
    destruct (reference_table_name_entry REFERENCE_sample object_str_sample "T"
                marked_alone None (MetaDict base_metadata) false
                [] "score" marked_plain_field [] eq_refl eq_refl) as [Hleft _].
    destruct (Hleft eq_refl ltac:(done) ltac:(done)
                ltac:(intros k f H; by apply elem_of_nil in H) _ eq_refl)
      as (d & v & Hd & Hv & Hm).
    simplify_eq. rewrite Hm. f_equal. f_equal.
    by vm_compute in Hv; simplify_eq.
  - destruct (reference_table_name_entry REFERENCE_sample object_str_sample "T"
                unmarked_alone None (MetaDict base_metadata) false
                [] "target_id" unmarked_reference_field [] eq_refl eq_refl)
      as [_ Hraise].
    apply Hraise; [by vm_compute | done |].
    intros k f H. by apply elem_of_nil in H.
Defined.

(** C6, on a list with two unknown names and a known one between them. *)
Lemma unknown_types_all_reported_witness :
  validate_types types_sample
    [("synapse", "t1"); ("cell_type", "t2"); ("nucleus", "t3")]
  = Raise (UnknownAnnotationTypeException
             [FmtNames ["synapse"; "nucleus"]; Lit " are invalid types"]).
Proof.
  destruct (unknown_types_all_reported REFERENCE_sample object_str_sample
              flatten_sample types_sample get_schema_sample Contact_sample
              [("synapse", "t1"); ("cell_type", "t2"); ("nucleus", "t3")])
    as (bad_types & Hv & Hbad & _).
  - exists ("synapse", "t1"). split; [apply list_elem_of_here | compute_done].
  - rewrite Hv, Hbad. by vm_compute.
Defined.

(** C8 (as stated, refuted). With a model cached under [T],
    [make_sqlalchemy_model] for [T] with a schema type that [get_schema]
    does not know returns no model: [get_schema] is called before the
    registry is consulted, and its exception goes on to the caller. *)
Lemma cached_table_unknown_schema_type :
  container (sqlalchemy_models world_after_seg1) !! "T" = Some 0
  ∧ make_sqlalchemy_model REFERENCE_sample object_str_sample flatten_sample
      get_schema_sample "T" "synapse" None (MetaValue PNone) true
      world_after_seg1
    = (Raise (UnknownAnnotationTypeException [Lit "synapse"]), world_after_seg1).
Proof. by vm_compute. Qed.

(** C8, on the scenario: once [T] is cached as the [T__seg1] model, a
    compile of another schema under [T] returns that model. *)
Lemma full_cache_keyed_by_table_name_witness :
  make_model_from_schema REFERENCE_sample object_str_sample flatten_sample
    "T" Contact_sample None (MetaValue PNone) false world_after_seg1
  = (Ok 0, world_after_seg1)
  ∧ make_sqlalchemy_model REFERENCE_sample object_str_sample flatten_sample
      get_schema_sample "T" "cell_type" None (MetaValue PNone) false
      world_after_seg1
    = (Ok 0, world_after_seg1).
Proof.
  destruct (full_cache_keyed_by_table_name REFERENCE_sample object_str_sample
              flatten_sample get_schema_sample "T" 0 world_after_seg1 [])
    as [Hfull Hsql].
  - by vm_compute.
  - split; [apply Hfull |]. by apply (Hsql "cell_type" scenario).
Defined.

(** C10, on one registered pair. *)
Lemma dataset_models_without_metadata_witness :
  make_dataset_models REFERENCE_sample object_str_sample flatten_sample
    types_sample get_schema_sample Contact_sample
    "volume" [("cell_type", "cells")] None false None true World_init
  = (Raise (AttributeError [Lit "'NoneType' object has no attribute 'get'"]),
     World_init).
Proof.
  apply (dataset_models_without_metadata REFERENCE_sample object_str_sample
           flatten_sample types_sample get_schema_sample Contact_sample).
  - done.
  - intros p H. each_item H. compute_done.
Defined.

(** ** More of the builder, on concrete schemas *)

Lemma base_table_header_witness :
  ∃ m, table_dict_sample "T" annotation_only None (MetaValue PNone) false = Ok m
       ∧ m !! tablename_key = Some (ERaw (PStr "T"))
       ∧ m !! id_key = Some (EColumn (mkColumn BigInteger None true PNone None))
       ∧ m !! mapper_args_key = Some (EMapperArgs (mkMapperArgs "T" true)).
Proof.
  destruct (is_Ok_true
              (table_dict_sample "T" annotation_only None (MetaValue PNone) false))
    as [m E]; [by vm_compute |].
  exists m. split; [exact E |].
  apply (base_table_header REFERENCE_sample object_str_sample "T"
           annotation_only None (MetaValue PNone) false m).
  - reflexivity.
  - intros k f H _. each_item H; compute_done.
  - exact E.
Defined.

Lemma unsupported_field_type_witness :
  table_dict_sample "T" dated_schema None (MetaValue PNone) true
  = Raise (InvalidSchemaField
             [Lit "field type "; FmtFieldType (mm_Other "DateTime");
              Lit " not supported"]).
Proof.
  apply (unsupported_field_type REFERENCE_sample object_str_sample "T"
           dated_schema None (MetaValue PNone) true
           [("category", field mm_String [])] "when" dated_field []).
  - reflexivity.
  - intros k f H _. each_item H.
    split; [split; [by eexists | done] |]. intros Hr. by vm_compute in Hr.
  - reflexivity.
  - intros Hr. by vm_compute in Hr.
  - reflexivity.
Defined.

Lemma plain_field_column_witness :
  ∃ m, table_dict_sample "T" annotation_only None (MetaValue PNone) false = Ok m
       ∧ m !! "pt" =
           Some (EColumn
                   (mkColumn (Geometry (PStr "POINTZ") 3 (PBool true))
                      None false PNone None)).
Proof.
  destruct (is_Ok_true
              (table_dict_sample "T" annotation_only None (MetaValue PNone) false))
    as [m E]; [by vm_compute |].
  exists m. split; [exact E |].
  destruct (plain_field_column REFERENCE_sample object_str_sample "T"
              annotation_only None (MetaValue PNone) false m "pt"
              (field PostGISField [("index", PBool true)])) as [Hgeo _].
  - compute_done.
  - exact E.
  - in_list.
  - reflexivity.
  - done.
  - done.
  - by apply Hgeo.
Defined.

Lemma reference_field_column_witness :
  ∃ m, table_dict_sample "T" reference_schema None (MetaDict base_metadata) false
       = Ok m
       ∧ m !! "target_id" =
           Some (EColumn (mkColumn BigInteger (Some "base.id") false
                                   (PBool false) None)).
Proof.
  destruct (is_Ok_true
              (table_dict_sample "T" reference_schema None
                 (MetaDict base_metadata) false))
    as [m E]; [by vm_compute |].
  exists m. split; [exact E |].
  destruct (reference_field_column REFERENCE_sample object_str_sample "T"
              reference_schema None (MetaDict base_metadata) false m "target_id"
              (field ReferenceTableField [("metadata", PStr "reference")]))
    as (d & v & Hd & Hv & Hm).
  - compute_done.
  - exact E.
  - in_list.
  - reflexivity.
  - done.
  - reflexivity.
  - reflexivity.
  - simplify_eq. rewrite Hm. by vm_compute in Hv; simplify_eq.
Defined.

Lemma no_reference_entry_left_witness :
  ∃ m, table_dict_sample "T" reference_schema None (MetaDict base_metadata) false
       = Ok m
       ∧ m !! reference_table_name = None.
Proof.
  destruct (is_Ok_true
              (table_dict_sample "T" reference_schema None
                 (MetaDict base_metadata) false))
    as [m E]; [by vm_compute |].
  exists m. split; [exact E |].
  apply (no_reference_entry_left REFERENCE_sample object_str_sample "T"
           reference_schema None (MetaDict base_metadata) false m);
    [| exact E].
  intros k f H _. each_item H. done.
Defined.

Lemma emitted_keys_witness :
  ∃ m, table_dict_sample "T" annotation_only None (MetaValue PNone) true = Ok m
       ∧ is_Some (m !! "deleted") ∧ is_Some (m !! "category")
       ∧ m !! "supervoxel_id" = None.
Proof.
  destruct (is_Ok_true
              (table_dict_sample "T" annotation_only None (MetaValue PNone) true))
    as [m E]; [by vm_compute |].
  exists m. split; [exact E |]. split; [| split].
  - apply (emitted_keys REFERENCE_sample object_str_sample "T" annotation_only
             None (MetaValue PNone) true m "deleted" E); [done |].
    right; left. split; [done | compute_done].
  - apply (emitted_keys REFERENCE_sample object_str_sample "T" annotation_only
             None (MetaValue PNone) true m "category" E); [done |].
    right; right. exists (field mm_String []). split; [in_list | done].
  - apply eq_None_not_Some. intros Hs.
    apply (emitted_keys REFERENCE_sample object_str_sample "T" annotation_only
             None (MetaValue PNone) true m "supervoxel_id" E) in Hs; [| done].
    destruct Hs as [Hs | [[_ Hs] | (f & Hf & _)]].
    + revert Hs. compute_done.
    + revert Hs. compute_done.
    + each_item Hf.
Defined.

(** ** More of the compiler, on concrete schemas *)

Lemma split_annotation_schema_partition_witness :
  ∃ ann sg,
    split_annotation_schema flatten_sample scenario = Ok (ann, sg)
    ∧ schema_name sg = "FlatBoundTag_segmentation"
    ∧ (declared_fields sg).*1 = ["supervoxel_id"]
    ∧ (declared_fields ann).*1 = ["pt"; "category"; "classification_system"].
Proof.
  destruct (split_annotation_schema_partition flatten_sample scenario)
    as (ann & sg & Hs & _ & Hn & Ha & Hg & _).
  - intros k f H. each_item H; done.
  - exists ann, sg. split; [exact Hs |]. rewrite Hn, Ha, Hg. by vm_compute.
Defined.

Lemma split_fails_on_nested_witness :
  compile_sample "T" nested_schema None (MetaValue PNone) true World_init
  = (Raise (not_flattened_error "Nested"), World_init).
Proof.
  destruct (split_fails_on_nested REFERENCE_sample object_str_sample
              flatten_sample nested_schema "pt"
              (field mm_Nested [("drop_column", PBool true)])) as [_ H].
  - in_list.
  - reflexivity.
  - by apply H.
Defined.

Lemma built_model_table_name_witness :
  ∃ d, classes world_after_seg1 !! 0 = Some (mkModelClass "T__seg1" Base d)
       ∧ d !! tablename_key = Some (ERaw (PStr "T__seg1")).
Proof.
  destruct (built_model_table_name REFERENCE_sample object_str_sample
              flatten_sample "T" scenario (Some "seg1") (MetaDict base_metadata)
              true World_init 0 world_after_seg1)
    as (d & _ & _ & Hc & Hn).
  - reflexivity.
  - by vm_compute.
  - exists d. split; [exact Hc | exact Hn].
Defined.

Lemma field_named_tablename_witness :
  compile_sample "T" schema_with_tablename None (MetaValue PNone) true World_init
  = (Raise type_error, World_init).
Proof.
  apply (field_named_tablename REFERENCE_sample object_str_sample flatten_sample
           "T" schema_with_tablename None (MetaValue PNone) true World_init
           (field mm_String [])).
  - reflexivity.
  - intros k f H. each_item H. done.
  - intros k f H _. vm_compute in H. each_item H.
    split; [split; [by eexists | done] |]. intros Hr. by vm_compute in Hr.
  - vm_compute. in_list.
  - reflexivity.
Defined.




Lemma registry_wf_compile_witness :
  registry_wf world_after_seg1 ∧ is_Some (classes world_after_seg1 !! 0).
Proof.
  destruct (registry_wf_compile REFERENCE_sample object_str_sample
              flatten_sample seg1_request World_init) as [Hwf Hx].
  - intros [T [|]] x H; unfold cached in H; simpl in H;
      by rewrite lookup_empty in H.
  - split; [exact Hwf |]. apply Hx. by vm_compute.
Defined.

Lemma unresolved_schema_type_witness :
  make_sqlalchemy_model REFERENCE_sample object_str_sample flatten_sample
    get_schema_sample "T" "nucleus" None (MetaValue PNone) true world_after_seg1
  = (Raise (UnknownAnnotationTypeException [Lit "nucleus"]), world_after_seg1).
Proof.
  apply (unresolved_schema_type REFERENCE_sample object_str_sample
           flatten_sample get_schema_sample "T" "nucleus" None (MetaValue PNone)
           true world_after_seg1).
  by vm_compute.
Defined.

Lemma dataset_models_result_witness :
  ∃ d, dataset_sample one_table None true World_init = (Ok d, world_after_dataset)
       ∧ d !! "cells" = Some 0 ∧ d !! "contact" = Some 1
       ∧ container (sqlalchemy_models world_after_dataset) !! "volume__contact"
         = Some 1.
Proof.
  destruct (is_Ok_true (dataset_sample one_table None true World_init).1)
    as [d E]; [by vm_compute |].
  assert (dataset_sample one_table None true World_init
          = (Ok d, world_after_dataset)) as Hrun.
  { assert ((dataset_sample one_table None true World_init).2
            = world_after_dataset) as Hw; [by vm_compute |].
    destruct (dataset_sample one_table None true World_init) as [res w].
    simpl in *. by subst. }
  exists d. split; [exact Hrun |].
  destruct (dataset_models_result REFERENCE_sample object_str_sample
              flatten_sample types_sample get_schema_sample Contact_sample
              "volume" one_table None true (Some ∅) true World_init d
              world_after_dataset Hrun) as (_ & Htables & Hcontact).
  assert (container (sqlalchemy_models world_after_dataset) !! "volume__contact"
          = Some 1) as Hc by (by vm_compute).
  split; [| split; [| exact Hc]].
  - rewrite (Htables "cells"); [by vm_compute | in_list | done].
  - rewrite <- Hc. by apply Hcontact.
Defined.

Lemma dataset_models_idempotent_witness :
  ∃ d, dataset_sample one_table None true World_init = (Ok d, world_after_dataset)
       ∧ dataset_sample one_table None true world_after_dataset
         = (Ok d, world_after_dataset).
Proof.
  destruct (is_Ok_true (dataset_sample one_table None true World_init).1)
    as [d E]; [by vm_compute |].
  assert (dataset_sample one_table None true World_init
          = (Ok d, world_after_dataset)) as Hrun.
  { assert ((dataset_sample one_table None true World_init).2
            = world_after_dataset) as Hw; [by vm_compute |].
    destruct (dataset_sample one_table None true World_init) as [res w].
    simpl in *. by subst. }
  exists d. split; [exact Hrun |].
  by apply (dataset_models_idempotent REFERENCE_sample object_str_sample
              flatten_sample types_sample get_schema_sample Contact_sample
              "volume" one_table None true (Some ∅) true World_init).
Defined.

(** The table [cells] has its [reference_table], the table [tags] after
    it has none: the call raises on [tags], and the model of [cells] is
    still in the registry. *)
Lemma dataset_models_progress_kept_witness :
  is_Ok (dataset_seg1_sample (one_table ++ [("bound_tag", "tags")]) World_init).1
  = false
  ∧ extends (dataset_seg1_sample one_table World_init).2
      (dataset_seg1_sample (one_table ++ [("bound_tag", "tags")]) World_init).2
  ∧ container
      (sqlalchemy_models
         (dataset_seg1_sample (one_table ++ [("bound_tag", "tags")])
            World_init).2) !! "cells" = Some 0.
Proof.
  destruct (is_Ok_true (dataset_seg1_sample one_table World_init).1)
    as [d E]; [by vm_compute |].
  split; [by vm_compute |]. split; [| by vm_compute].
  apply (dataset_models_progress_kept REFERENCE_sample object_str_sample
           flatten_sample types_sample get_schema_sample Contact_sample
           "volume" one_table [("bound_tag", "tags")] (Some "seg1") false
           (Some {["cells" := MetaDict base_metadata]}) true World_init d).
  - clear E. intros p H. each_item H; compute_done.
  - unfold dataset_seg1_sample in E |- *.
    destruct (make_dataset_models _ _ _ _ _ _ _ one_table _ _ _ _ World_init)
      as [res w].
    simpl in *. by subst.
Defined.

Lemma flat_model_built_witness :
  ∃ d, make_flat_model_from_schema REFERENCE_sample object_str_sample
         flatten_sample "T" scenario (Some "seg1") (MetaDict base_metadata)
         World_init
       = (Ok 0, store_class "T" true (mkModelClass "T" FlatBase d) World_init)
       ∧ is_Some (d !! "pt") ∧ is_Some (d !! "supervoxel_id").
Proof.
  destruct (is_Ok_true
              (make_flat_model_from_schema REFERENCE_sample object_str_sample
                 flatten_sample "T" scenario (Some "seg1")
                 (MetaDict base_metadata) World_init).1)
    as [x E]; [by vm_compute |].
  destruct (make_flat_model_from_schema REFERENCE_sample object_str_sample
              flatten_sample "T" scenario (Some "seg1") (MetaDict base_metadata)
              World_init) as [res w'] eqn:Hrun.
  simpl in E. subst res.
  destruct (flat_model_built REFERENCE_sample object_str_sample flatten_sample
              "T" scenario (Some "seg1") (MetaDict base_metadata) World_init
              x w' eq_refl Hrun) as (d & -> & -> & _ & Hfields & _).
  exists d. split; [done |]. split.
  - apply (Hfields "pt" (field PostGISField [("index", PBool true)]));
      [in_list | done | done].
  - apply (Hfields "supervoxel_id"
             (field ReferenceTableField
                [("segmentation_field", PBool true);
                 ("metadata", PStr "reference")])); [in_list | done | done].
Defined.

(** ** Database names, on concrete uris *)

Lemma format_version_db_uri_last_segment_witness :
  format_version_db_uri "postgres://host:5432/annotation" "minnie" (Some 3%Z)
  = "postgres://host:5432/minnie_v3"
  ∧ format_version_db_uri "annotation" "minnie" None = "/minnie_vNone".
Proof.
  destruct (format_version_db_uri_last_segment "postgres://host:5432"
              "annotation" "minnie" (Some 3%Z) eq_refl) as [H _].
  destruct (format_version_db_uri_last_segment "" "annotation" "minnie" None
              eq_refl) as [_ H'].
  split; [exact H | exact H'].
Defined.

Lemma format_version_db_uri_again_witness :
  format_version_db_uri
    (format_version_db_uri "postgres://host:5432/annotation" "minnie" (Some 3%Z))
    "minnie" (Some 4%Z)
  = format_version_db_uri "postgres://host:5432/annotation" "minnie" (Some 4%Z).
Proof.
  apply (format_version_db_uri_again "postgres://host:5432/annotation" "minnie"
           (Some 3%Z) "minnie" (Some 4%Z)).
  reflexivity.
Defined.

Lemma format_database_name_version_inj_witness : 3%Z = 3%Z.
Proof.
  apply (format_database_name_version_inj "minnie" 3 3). reflexivity.
Defined.
